(** * bottom_feeder: the scrape / analyse / store pipeline of [scraper.py]

    A shallow embedding of [scraper.py] and [models.py].  The pipeline
    [fetch_and_store_article] talks to three outside parties: the web
    server of the article ([requests.get]), the completion service
    ([requests.post]) and the SQLite database behind the global
    SQLAlchemy [session].  The first two are read from a [World] record
    that says how they answer during one call; the third is an explicit
    [Session] value threaded through a small state-and-exception monad.

    Python strings are modelled by [string]; a character is a code point
    below 256. *)

From Stdlib Require Import List String Ascii ZArith Bool Lia.
From Stdlib Require Import Floats.PrimFloat.
Import ListNotations.

#[local] Set Warnings "-register-all".
Local Open Scope string_scope.
Local Open Scope Z_scope.

(* ================================================================= *)
(** ** Python strings *)

(** The line feed and the double quote, which the prompt and the JSON
    replies contain. *)
Definition LF : string := String (ascii_of_nat 10) EmptyString.
Definition DQ : string := String (ascii_of_nat 34) EmptyString.

(** [str.isspace] on one character: TAB..CR, FS..US, SPACE, NEL, NBSP. *)
Definition py_isspace (c : ascii) : bool :=
  let n := Z.of_nat (nat_of_ascii c) in
  ((9 <=? n) && (n <=? 13)) || ((28 <=? n) && (n <=? 32))
  || (n =? 133) || (n =? 160).

Fixpoint py_lstrip (s : string) : string :=
  match s with
  | EmptyString => EmptyString
  | String c r => if py_isspace c then py_lstrip r else s
  end.

Fixpoint py_rstrip (s : string) : string :=
  match s with
  | EmptyString => EmptyString
  | String c r =>
      match py_rstrip r with
      | EmptyString => if py_isspace c then EmptyString else String c EmptyString
      | r' => String c r'
      end
  end.

(** [s.strip()] *)
Definition py_strip (s : string) : string := py_rstrip (py_lstrip s).

(** [sep.join(l)] *)
Definition py_join (sep : string) (l : list string) : string :=
  String.concat sep l.

(* ================================================================= *)
(** ** Python values

    What [json.loads] and [response.json()] can return, and therefore
    what [analysis.get(...)] can hand to an [AnalysisResult] column. *)

Inductive pyval : Type :=
| PyNone
| PyBool (b : bool)
| PyInt (z : Z)
| PyFloat (f : float)
| PyStr (s : string)
| PyList (items : list pyval)
| PyDict (items : list (string * pyval)).

(** The exceptions the pipeline's [except] clauses tell apart, and the
    built-in ones that fall under [except Exception]. *)
Inductive exn : Type :=
| RequestException
| HTTPError
| JSONDecodeError
| SQLAlchemyError
| KeyError
| IndexError
| TypeError
| AttributeError.

(** [bool(v)], as the [if analysis:] tests apply it. *)
Definition truthy (v : pyval) : bool :=
  match v with
  | PyNone => false
  | PyBool b => b
  | PyInt z => negb (z =? 0)
  | PyFloat f => negb (PrimFloat.eqb f PrimFloat.zero)
  | PyStr s => negb (String.eqb s "")
  | PyList l => match l with [] => false | _ => true end
  | PyDict d => match d with [] => false | _ => true end
  end.

(** Key lookup in the items of a dict (keys of a dict are distinct; the
    first binding is the one found). *)
Fixpoint dict_lookup (k : string) (d : list (string * pyval)) : option pyval :=
  match d with
  | [] => None
  | (k', v) :: r => if String.eqb k' k then Some v else dict_lookup k r
  end.

(** [v[k]] for a string key [k]. *)
Definition py_getitem (v : pyval) (k : string) : pyval + exn :=
  match v with
  | PyDict d => match dict_lookup k d with Some x => inl x | None => inr KeyError end
  | _ => inr TypeError
  end.

(** [v[0]] *)
Definition py_getitem0 (v : pyval) : pyval + exn :=
  match v with
  | PyList (x :: _) => inl x
  | PyList [] => inr IndexError
  | PyStr (String c _) => inl (PyStr (String c EmptyString))
  | PyStr EmptyString => inr IndexError
  | PyDict _ => inr KeyError
  | _ => inr TypeError
  end.

(** [v.get(k, default)]: only a dict has the method. *)
Definition py_get (v : pyval) (k : string) (default : pyval) : pyval + exn :=
  match v with
  | PyDict d => inl (match dict_lookup k d with Some x => x | None => default end)
  | _ => inr AttributeError
  end.

(** [v.strip()]: only a string has the method. *)
Definition py_str_strip (v : pyval) : string + exn :=
  match v with
  | PyStr s => inl (py_strip s)
  | _ => inr AttributeError
  end.

(* ================================================================= *)
(** ** The parsed page

    [BeautifulSoup(response.text, 'html.parser')] turns the page into a
    tree.  An element keeps its name and the tokens of its [class]
    attribute (no other attribute is read by the pipeline); [Comment]
    stands for the string nodes [get_text] leaves out (comments,
    doctype, declarations). *)

Inductive PageElement : Type :=
| NavigableString (s : string)
| Comment (s : string)
| Tag (name : string) (classes : list string) (contents : list PageElement).

(** [e.descendants]: every node below [e], in document order. *)
Fixpoint descendants (e : PageElement) : list PageElement :=
  match e with
  | Tag _ _ contents => flat_map (fun c => c :: descendants c) contents
  | _ => []
  end.

(** How a [class_] string is matched against a multi-valued attribute:
    it equals one of the tokens, or the tokens joined by single spaces. *)
Definition class_matches (classes : list string) (class_ : string) : bool :=
  existsb (String.eqb class_) classes
  || String.eqb (py_join " " classes) class_.

Definition tag_matches (name : string) (class_ : option string)
    (e : PageElement) : bool :=
  match e with
  | Tag n cls _ =>
      String.eqb n name
      && match class_ with
         | None => true
         | Some c => class_matches cls c
         end
  | _ => false
  end.

(** [e.find_all(name)] and [e.find_all(name, class_=c)] *)
Definition find_all (name : string) (class_ : option string)
    (e : PageElement) : list PageElement :=
  filter (tag_matches name class_) (descendants e).

(** [e.find(name)] and [e.find(name, class_=c)]: the first match, or
    [None]. *)
Definition find (name : string) (class_ : option string)
    (e : PageElement) : option PageElement :=
  hd_error (find_all name class_ e).

(** The strings [get_text(strip=True)] keeps: every text node below [e],
    stripped, the empty ones dropped. *)
Definition stripped_strings (e : PageElement) : list string :=
  flat_map
    (fun d =>
       match d with
       | NavigableString s =>
           let t := py_strip s in
           if String.eqb t "" then [] else [t]
       | _ => []
       end)
    (descendants e).

(** [e.get_text(strip=True)] *)
Definition get_text (e : PageElement) : string :=
  py_join "" (stripped_strings e).

(* ================================================================= *)
(** ** Extraction (scraper.py, lines 124-166) *)

(** Lines 125-135: [soup.find('h1')], then its text. *)
Definition extract_title (soup : PageElement) : option string :=
  match find "h1" None soup with
  | Some title_tag => Some (get_text title_tag)
  | None => None
  end.

(** Lines 138-148: [soup.find('span', class_='d-ib mr-05')]. *)
Definition extract_pub_date (soup : PageElement) : option string :=
  match find "span" (Some "d-ib mr-05") soup with
  | Some pub_date_tag => Some (get_text pub_date_tag)
  | None => None
  end.

(** Lines 151-166: the body container, its [<p>] elements, their texts
    joined by a blank line. *)
Definition extract_body (soup : PageElement) : option string :=
  match find "div" (Some "kInstance-Body instance-box-mb") soup with
  | Some body_div =>
      match find_all "p" None body_div with
      | [] => None
      | paragraphs => Some (py_join (LF ++ LF) (map get_text paragraphs))
      end
  | None => None
  end.

(* ================================================================= *)
(** ** The outside world during one call *)

(** [requests.get(url)]: an exception of [requests], or a response with
    its status code and the tree [html.parser] builds from its text. *)
Inductive get_outcome : Type :=
| GetRaises
| GetResponse (status_code : Z) (soup : PageElement).

(** [requests.post(DEEPSEEK_API_URL, ...)]: an exception of [requests],
    or a response with its status code and what [response.json()]
    decodes ([None] when the body is not JSON). *)
Inductive post_outcome : Type :=
| PostRaises
| PostResponse (status_code : Z) (json : option pyval).

(** The two writes of the pipeline. *)
Inductive write : Type := InsertArticle | InsertAnalysis.

(** [http_get] answers by URL and [http_post] by the prompt sent (the
    rest of the payload is constant); [db_fault] says whether the
    database refuses a write for a reason of its own (locked or
    unreachable database, full disk). *)
Record World : Type := {
  http_get : string -> get_outcome;
  http_post : string -> post_outcome;
  db_fault : write -> bool
}.

(** [response.raise_for_status()] raises on 4xx and 5xx. *)
Definition raises_for_status (status_code : Z) : bool :=
  (400 <=? status_code) && (status_code <? 600).

(** The requests the process has sent, oldest first. *)
Inductive call : Type :=
| Get (url : string)
| Post (prompt : string).

(* ================================================================= *)
(** ** The store (models.py) *)

Module Article.
Record t : Type := {
  id : Z;
  url : string;
  title : string;
  publication_date : string;
  body_text : string
}.
End Article.

(** The three text columns hold the Python value bound to them. *)
Module AnalysisResult.
Record t : Type := {
  id : Z;
  article_id : Z;
  company_name : pyval;
  ceo_name : pyval;
  summary : pyval
}.
End AnalysisResult.

Record Database : Type := {
  articles : list Article.t;
  analysis_results : list AnalysisResult.t
}.

(** What [init_db.py] and [Base.metadata.create_all] leave in a fresh
    file: both tables, no rows. *)
Definition empty_database : Database :=
  {| articles := []; analysis_results := [] |}.

(** A mapped object that was constructed but not yet flushed: it has no
    primary key. *)
Inductive instance : Type :=
| NewArticle (url title publication_date body_text : string)
| NewAnalysisResult (article_id : Z) (company_name ceo_name summary : pyval).

(** The rowid SQLite gives to a new row: one more than the largest in
    the table, 1 in an empty table. *)
Definition next_rowid (ids : list Z) : Z := 1 + fold_right Z.max 0 ids.

(** The values [sqlite3] can bind to a statement parameter. *)
Definition sqlite_bindable (v : pyval) : bool :=
  match v with
  | PyList _ | PyDict _ => false
  | PyInt z => (- 2 ^ 63 <=? z) && (z <? 2 ^ 63)
  | _ => true
  end.

(** One INSERT, with the constraints of [models.py]: [url] is unique in
    [articles], [article_id] is unique in [analysis_results].  (SQLite
    does not enforce the foreign key unless asked to, and the program
    does not ask.)  The result is the new primary key and the table
    contents after the statement. *)
Definition insert (o : instance) (d : Database) : (Z * Database) + exn :=
  match o with
  | NewArticle u t p b =>
      if existsb (fun a => String.eqb (Article.url a) u) (articles d)
      then inr SQLAlchemyError
      else
        let i := next_rowid (map Article.id (articles d)) in
        inl (i, {| articles :=
                     articles d ++
                     [{| Article.id := i; Article.url := u; Article.title := t;
                         Article.publication_date := p; Article.body_text := b |}];
                   analysis_results := analysis_results d |})
  | NewAnalysisResult aid c n s =>
      if negb (sqlite_bindable c && sqlite_bindable n && sqlite_bindable s)
      then inr SQLAlchemyError
      else if existsb (fun r => AnalysisResult.article_id r =? aid)
                      (analysis_results d)
      then inr SQLAlchemyError
      else
        let i := next_rowid (map AnalysisResult.id (analysis_results d)) in
        inl (i, {| articles := articles d;
                   analysis_results :=
                     analysis_results d ++
                     [{| AnalysisResult.id := i; AnalysisResult.article_id := aid;
                         AnalysisResult.company_name := c;
                         AnalysisResult.ceo_name := n;
                         AnalysisResult.summary := s |}] |})
  end.

(** The INSERTs of a flush, in the order the objects were added. *)
Fixpoint insert_all (os : list instance) (d : Database)
    : (list Z * Database) + exn :=
  match os with
  | [] => inl ([], d)
  | o :: r =>
      match insert o d with
      | inl (i, d1) =>
          match insert_all r d1 with
          | inl (ids, d2) => inl (i :: ids, d2)
          | inr e => inr e
          end
      | inr e => inr e
      end
  end.

(** The global [session] of scraper.py (line 32; SQLAlchemy's defaults:
    autoflush on, autocommit off): the rows committed to the file, the
    rows as the open transaction sees them, the pending objects, and
    whether the transaction is usable.  When a flush fails, SQLAlchemy
    rolls the database transaction back, expunges the pending objects
    and leaves the session's transaction inactive: until
    [session.rollback()] is called, every query and every commit raises
    (the transaction has been rolled back due to a previous exception
    during flush).  Failures of the database itself are modelled at the
    writes only. *)
Record Session : Type := {
  committed : Database;
  txn : Database;
  new : list instance;
  active : bool
}.

(** [Session()] on a fresh database file. *)
Definition fresh_session : Session :=
  {| committed := empty_database; txn := empty_database;
     new := []; active := true |}.

(** The state of the running script. *)
Record Process : Type := {
  session : Session;
  calls : list call
}.

Definition start : Process := {| session := fresh_session; calls := [] |}.

(* ================================================================= *)
(** ** A state monad with exceptions *)

Inductive outcome (A : Type) : Type :=
| Ret (a : A)
| Raise (e : exn).
Arguments Ret {A} a.
Arguments Raise {A} e.

Definition M (A : Type) : Type := Process -> outcome A * Process.

Definition ret {A} (a : A) : M A := fun p => (Ret a, p).

Definition raise {A} (e : exn) : M A := fun p => (Raise e, p).

Definition bind {A B} (m : M A) (k : A -> M B) : M B :=
  fun p =>
    match m p with
    | (Ret a, p1) => k a p1
    | (Raise e, p1) => (Raise e, p1)
    end.

(** [try: m except Exception: h] *)
Definition try_except {A} (m : M A) (h : exn -> M A) : M A :=
  fun p =>
    match m p with
    | (Ret a, p1) => (Ret a, p1)
    | (Raise e, p1) => h e p1
    end.

(** A pure step that may raise. *)
Definition lift {A} (r : A + exn) : M A :=
  match r with
  | inl a => ret a
  | inr e => raise e
  end.

Declare Scope py_scope.
Delimit Scope py_scope with py.
Notation "x <- m ;; k" := (bind m (fun x => k))
  (at level 61, m at next level, right associativity) : py_scope.
Notation "m ;; k" := (bind m (fun _ => k))
  (at level 61, right associativity) : py_scope.
Local Open Scope py_scope.

Definition with_session (p : Process) (s : Session) : Process :=
  {| session := s; calls := calls p |}.

Definition record_call (c : call) : M unit :=
  fun p => (Ret tt, {| session := session p; calls := calls p ++ [c] |}).

(* ================================================================= *)
(** ** Session operations *)

(** [session.add(obj)] *)
Definition session_add (o : instance) : M unit :=
  fun p =>
    let s := session p in
    (Ret tt, with_session p {| committed := committed s; txn := txn s;
                               new := new s ++ [o]; active := active s |}).

(** [session.flush()]; [fault] is the database refusing the write.
    With nothing pending it does nothing. *)
Definition session_flush (fault : bool) : M (list Z) :=
  fun p =>
    let s := session p in
    match new s with
    | [] => (Ret [], p)
    | os =>
        if negb (active s) then (Raise SQLAlchemyError, p)
        else
          match (if fault then inr SQLAlchemyError else insert_all os (txn s)) with
          | inl (ids, d) =>
              (Ret ids, with_session p {| committed := committed s; txn := d;
                                          new := []; active := true |})
          | inr e =>
              (Raise e, with_session p {| committed := committed s;
                                          txn := committed s;
                                          new := []; active := false |})
          end
    end.

(** [session.commit()]: on a usable session, flush, then make the
    transaction's rows the committed ones.  It hands back the primary
    keys the flush gave to the pending objects, which is how the model
    reads [obj.id] later. *)
Definition session_commit (fault : bool) : M (list Z) :=
  fun p =>
    if negb (active (session p)) then (Raise SQLAlchemyError, p)
    else
      (ids <- session_flush fault ;;
       fun p1 =>
         let s := session p1 in
         (Ret ids, with_session p1 {| committed := txn s; txn := txn s;
                                      new := new s; active := active s |})) p.

(** [session.rollback()] *)
Definition session_rollback : M unit :=
  fun p =>
    let s := session p in
    (Ret tt, with_session p {| committed := committed s; txn := committed s;
                               new := []; active := true |}).

(** What precedes every query: the session must be usable, and pending
    objects are flushed first (autoflush). *)
Definition before_query : M unit :=
  fun p =>
    let s := session p in
    if negb (active s) then (Raise SQLAlchemyError, p)
    else
      match new s with
      | [] => (Ret tt, p)
      | _ => (session_flush false ;; ret tt) p
      end.

(** [session.query(Article).filter_by(url=url).first()] *)
Definition query_article_by_url (url : string) : M (option Article.t) :=
  before_query ;;
  fun p =>
    (Ret (List.find (fun a => String.eqb (Article.url a) url)
                    (articles (txn (session p)))), p).

(** [session.query(AnalysisResult).filter_by(article_id=i).first()] *)
Definition query_analysis_by_article_id (i : Z) : M (option AnalysisResult.t) :=
  before_query ;;
  fun p =>
    (Ret (List.find (fun r => AnalysisResult.article_id r =? i)
                    (analysis_results (txn (session p)))), p).

(* ================================================================= *)
(** ** The analyzer client (scraper.py, lines 43-108) *)

(** Lines 49-63. *)
Definition prompt (body_text : string) : string :=
  "Extract the following information from the article below:" ++ LF ++
  "- Company Name" ++ LF ++
  "- CEO Name" ++ LF ++
  "- Summary" ++ LF ++ LF ++
  "Article:" ++ LF ++
  body_text ++ LF ++ LF ++
  "Please provide the information in the following JSON format exactly as shown:" ++ LF ++
  "{" ++ LF ++
  "  " ++ DQ ++ "company_name" ++ DQ ++ ": " ++ DQ ++ "Company Name" ++ DQ ++ "," ++ LF ++
  "  " ++ DQ ++ "ceo_name" ++ DQ ++ ": " ++ DQ ++ "CEO Name" ++ DQ ++ "," ++ LF ++
  "  " ++ DQ ++ "summary" ++ DQ ++ ": " ++ DQ ++ "Summary of the article." ++ DQ ++ LF ++
  "}" ++ LF ++
  "Ensure that all fields are filled accurately.".

(** The suffix of [s] that starts at its first opening brace. *)
Fixpoint from_first_open (s : string) : option string :=
  match s with
  | EmptyString => None
  | String c r => if Ascii.eqb c "{" then Some s else from_first_open r
  end.

(** The longest prefix of [s] that ends with a closing brace. *)
Fixpoint upto_last_close (s : string) : option string :=
  match s with
  | EmptyString => None
  | String c r =>
      match upto_last_close r with
      | Some t => Some (String c t)
      | None => if Ascii.eqb c "}" then Some (String c EmptyString) else None
      end
  end.

(** Line 88 and line 93: [re.search(r'\{.*\}', reply, re.DOTALL)] and
    the text it matched.  The leftmost match starts at the first opening
    brace that has a closing brace after it, and the greedy [.*] (which
    crosses line ends under DOTALL) runs to the last closing brace. *)
Definition re_search_braces (reply : string) : option string :=
  match from_first_open reply with
  | Some (String c r) =>
      match upto_last_close r with
      | Some t => Some (String c t)
      | None => None
      end
  | _ => None
  end.

(** Line 85: [response.json()["choices"][0]["message"]["content"].strip()] *)
Definition reply_of (json : option pyval) : string + exn :=
  match json with
  | None => inr JSONDecodeError
  | Some v =>
      match py_getitem v "choices" with
      | inr e => inr e
      | inl choices =>
          match py_getitem0 choices with
          | inr e => inr e
          | inl choice =>
              match py_getitem choice "message" with
              | inr e => inr e
              | inl message =>
                  match py_getitem message "content" with
                  | inr e => inr e
                  | inl content => py_str_strip content
                  end
              end
          end
      end
  end.

Section Pipeline.

(** [json.loads], the decoder of the Python library; [None] is a
    [JSONDecodeError]. *)
Variable json_loads : string -> option pyval.

(** Lines 81-82: the request and [raise_for_status]. *)
Definition requests_post (w : World) (prompt : string) : M (option pyval) :=
  record_call (Post prompt) ;;
  match http_post w prompt with
  | PostRaises => raise RequestException
  | PostResponse status_code json =>
      if raises_for_status status_code then raise HTTPError else ret json
  end.

(** [analyze_article(body_text)]; Python's [None] is [PyNone]. *)
Definition analyze_article (w : World) (body_text : string) : M pyval :=
  try_except
    (json <- requests_post w (prompt body_text) ;;
     reply <- lift (reply_of json) ;;
     match re_search_braces reply with
     | None => ret PyNone
     | Some json_str =>
         match json_loads json_str with
         | Some analysis => ret analysis
         | None => raise JSONDecodeError
         end
     end)
    (fun _ => ret PyNone).

(* =============================================================== *)
(** ** The pipeline (scraper.py, lines 110-248) *)

(** Lines 119-120. *)
Definition requests_get (w : World) (url : string) : M PageElement :=
  record_call (Get url) ;;
  match http_get w url with
  | GetRaises => raise RequestException
  | GetResponse status_code soup =>
      if raises_for_status status_code then raise HTTPError else ret soup
  end.

(** Lines 182-191 and 220-229: build the [AnalysisResult], add it and
    commit. *)
Definition save_analysis (w : World) (article_id : Z) (analysis : pyval)
    : M unit :=
  company_name <- lift (py_get analysis "company_name" (PyStr "")) ;;
  ceo_name <- lift (py_get analysis "ceo_name" (PyStr "")) ;;
  summary <- lift (py_get analysis "summary" (PyStr "")) ;;
  session_add (NewAnalysisResult article_id company_name ceo_name summary) ;;
  session_commit (db_fault w InsertAnalysis) ;;
  ret tt.

(** Lines 170-196, the body of the [try].  [Some i] is
    [return existing_article.id]; [None] is falling out of the [try]
    because no article has this URL. *)
Definition existing_article_block (w : World) (url body_text : string)
    : M (option Z) :=
  existing_article <- query_article_by_url url ;;
  match existing_article with
  | Some existing_article =>
      existing_analysis <-
        query_analysis_by_article_id (Article.id existing_article) ;;
      match existing_analysis with
      | Some _ => ret tt
      | None =>
          analysis <- analyze_article w body_text ;;
          if truthy analysis
          then save_analysis w (Article.id existing_article) analysis
          else ret tt
      end ;;
      ret (Some (Article.id existing_article))
  | None => ret None
  end.

(** Lines 203-235, the body of the [try]; the result is [article.id]. *)
Definition new_article_block (w : World)
    (url title pub_date body_text : string) : M Z :=
  session_add (NewArticle url title pub_date body_text) ;;
  ids <- session_commit (db_fault w InsertArticle) ;;
  let article_id := last ids 0 in
  analysis <- analyze_article w body_text ;;
  (if truthy analysis
   then save_analysis w article_id analysis
   else ret tt) ;;
  ret article_id.

(** Lines 168-243, once the three fields are extracted. *)
Definition store_article (w : World)
    (url title pub_date body_text : string) (p : Process)
    : option Z * Process :=
  match existing_article_block w url body_text p with
  | (Raise _, p1) => (None, p1)                       (* lines 197-199 *)
  | (Ret (Some existing_id), p1) => (Some existing_id, p1)
  | (Ret None, p1) =>
      match new_article_block w url title pub_date body_text p1 with
      | (Ret article_id, p2) => (Some article_id, p2)
      | (Raise _, p2) => (None, snd (session_rollback p2))  (* lines 236-243 *)
      end
  end.

(** [fetch_and_store_article(url)]; [None] is Python's [None]. *)
Definition fetch_and_store_article (w : World) (url : string)
    (p : Process) : option Z * Process :=
  match requests_get w url p with
  | (Raise _, p1) => (None, p1)                       (* lines 245-248 *)
  | (Ret soup, p1) =>
      match extract_title soup with
      | None => (None, p1)
      | Some title =>
          match extract_pub_date soup with
          | None => (None, p1)
          | Some pub_date =>
              match extract_body soup with
              | None => (None, p1)
              | Some body_text => store_article w url title pub_date body_text p1
              end
          end
      end
  end.

(** The driver's test [if article_id:]. *)
Definition reports_success (article_id : option Z) : bool :=
  match article_id with
  | Some i => negb (i =? 0)
  | None => false
  end.

(** Lines 258-263: one call per URL, in order; each call meets the
    world as it is at that time. *)
Fixpoint main (runs : list (World * string)) (p : Process)
    : list (option Z) * Process :=
  match runs with
  | [] => ([], p)
  | (w, url) :: rest =>
      let (article_id, p1) := fetch_and_store_article w url p in
      let (ids, p2) := main rest p1 in
      (article_id :: ids, p2)
  end.

End Pipeline.

(* ================================================================= *)
(** ** Sample pages, replies and worlds

    Concrete data for the examples below. *)

Definition body_class : list string := ["kInstance-Body"; "instance-box-mb"].
Definition date_class : list string := ["d-ib"; "mr-05"].

Definition h1 (text : string) : PageElement :=
  Tag "h1" [] [NavigableString text].
Definition date_span (text : string) : PageElement :=
  Tag "span" date_class [NavigableString text].
Definition p_ (text : string) : PageElement :=
  Tag "p" [] [NavigableString text].
Definition document (contents : list PageElement) : PageElement :=
  Tag "[document]" [] contents.

(** [<h1>Test Title</h1><span class="d-ib mr-05">1 Jan 2025</span>
     <div class="kInstance-Body instance-box-mb"><p>A.</p><p>B.</p></div>] *)
Definition test_page : PageElement :=
  document [h1 "Test Title"; date_span "1 Jan 2025";
            Tag "div" body_class [p_ "A."; p_ "B."]].

(** The same article after an edit of its text. *)
Definition edited_page : PageElement :=
  document [h1 "Test Title"; date_span "1 Jan 2025";
            Tag "div" body_class [p_ "A."; p_ "C."]].

(** A second [<h1>] in front of the expected one. *)
Definition two_h1_page : PageElement :=
  document [h1 "Site"; h1 "Test Title"; date_span "1 Jan 2025";
            Tag "div" body_class [p_ "A."; p_ "B."]].

(** The only paragraph sits inside a [<blockquote>]: it is a descendant
    of the body container, not a child. *)
Definition nested_p_page : PageElement :=
  document [h1 "Test Title"; date_span "1 Jan 2025";
            Tag "div" body_class [Tag "blockquote" [] [p_ "A."]]].

(** The envelope of a chat completion whose message is [content]. *)
Definition completion (content : string) : pyval :=
  PyDict [("choices",
           PyList [PyDict [("message",
                            PyDict [("role", PyStr "assistant");
                                    ("content", PyStr content)])]])].

(** The text [{"company_name": "Acme"}] and the dict it decodes to. *)
Definition acme_json : string :=
  "{" ++ DQ ++ "company_name" ++ DQ ++ ": " ++ DQ ++ "Acme" ++ DQ ++ "}".
Definition acme : pyval := PyDict [("company_name", PyStr "Acme")].

(** A decoder that agrees with [json.loads] on the texts the examples
    decode: [acme_json], which is an object, and ["{}"], the empty
    object.  No other text is decoded in the examples. *)
Definition sample_loads (s : string) : option pyval :=
  if String.eqb s acme_json then Some acme
  else if String.eqb s "{}" then Some (PyDict [])
  else None.

Definition url1 : string := "https://example.org/a".
Definition url2 : string := "https://example.org/b".

(** Every URL serves [soup]; the service answers [content] to every
    prompt; the database takes every write. *)
Definition serving (soup : PageElement) (content : string) : World :=
  {| http_get := fun _ => GetResponse 200 soup;
     http_post := fun _ => PostResponse 200 (Some (completion content));
     db_fault := fun _ => false |}.

(** The site does not answer; the analysis service and the database
    work. *)
Definition site_down : World :=
  {| http_get := fun _ => GetRaises;
     http_post := fun _ => PostResponse 200 (Some (completion acme_json));
     db_fault := fun _ => false |}.

(** As [serving], but the database refuses the analysis write. *)
Definition analysis_write_fails (soup : PageElement) (content : string) : World :=
  {| http_get := fun _ => GetResponse 200 soup;
     http_post := fun _ => PostResponse 200 (Some (completion content));
     db_fault := fun x => match x with InsertAnalysis => true | InsertArticle => false end |}.

(** The service answers only the prompt built from [body_text]. *)
Definition answering_only (soup : PageElement) (body_text content : string) : World :=
  {| http_get := fun _ => GetResponse 200 soup;
     http_post := fun q =>
       if String.eqb q (prompt body_text)
       then PostResponse 200 (Some (completion content))
       else PostRaises;
     db_fault := fun _ => false |}.

(** No [<h1>] on the page. *)
Definition untitled_page : PageElement :=
  document [date_span "1 Jan 2025"; Tag "div" body_class [p_ "A."; p_ "B."]].

(** The body text of [test_page] and of [edited_page]. *)
Definition test_body : string := "A." ++ LF ++ LF ++ "B.".
Definition edited_body : string := "A." ++ LF ++ LF ++ "C.".

(** After a first call on [url1] whose analysis failed: the Article row
    is stored, no AnalysisResult row is. *)
Definition stored_only : Process :=
  snd (fetch_and_store_article sample_loads
         (serving test_page "no json here") url1 start).

(** After a first call on [url1] that went through: both rows stored. *)
Definition processed : Process :=
  snd (fetch_and_store_article sample_loads
         (serving test_page ("Here is the result: " ++ acme_json)) url1 start).

(** After the call on [url1] whose analysis write the database refused:
    the session is unusable. *)
Definition poisoned : Process :=
  snd (fetch_and_store_article sample_loads
         (analysis_write_fails test_page acme_json) url1 stored_only).

(* ================================================================= *)
(** ** Vocabulary of the statements *)

Local Open Scope list_scope.

(** A session between two calls of the pipeline: nothing pending, the
    transaction shows the committed rows. *)
Definition resting (d : Database) (a : bool) : Session :=
  {| committed := d; txn := d; new := []; active := a |}.

Definition idle (s : Session) : Prop :=
  s = resting (committed s) (active s).

(** The process after one more request. *)
Definition logged (c : call) (p : Process) : Process :=
  {| session := session p; calls := calls p ++ [c] |}.

(** The rows of the committed store. *)
Definition stored_articles (p : Process) : list Article.t :=
  articles (committed (session p)).
Definition stored_analyses (p : Process) : list AnalysisResult.t :=
  analysis_results (committed (session p)).

(** The article stored under a URL, and the analysis stored for an
    article, as the two queries of the pipeline look them up. *)
Definition article_of (url : string) (d : Database) : option Article.t :=
  List.find (fun a => String.eqb (Article.url a) url) (articles d).
Definition analysis_of (i : Z) (d : Database) : option AnalysisResult.t :=
  List.find (fun r => AnalysisResult.article_id r =? i) (analysis_results d).

(** The page behind [url] is served and yields the three fields. *)
Definition page_extracts (w : World) (url title pub_date body_text : string)
    : Prop :=
  exists status_code soup,
    http_get w url = GetResponse status_code soup /\
    raises_for_status status_code = false /\
    extract_title soup = Some title /\
    extract_pub_date soup = Some pub_date /\
    extract_body soup = Some body_text.

(** The fetch fails, or one of the three selectors finds nothing. *)
Definition page_fails (w : World) (url : string) : Prop :=
  http_get w url = GetRaises \/
  exists status_code soup,
    http_get w url = GetResponse status_code soup /\
    (raises_for_status status_code = true \/
     extract_title soup = None \/
     extract_pub_date soup = None \/
     extract_body soup = None).

(** The direct [<p>] children of an element. *)
Definition paragraph_children (e : PageElement) : list PageElement :=
  match e with
  | Tag _ _ contents => filter (tag_matches "p" None) contents
  | _ => []
  end.

(** Every analysis row refers to a stored article. *)
Definition analyses_have_articles (d : Database) : Prop :=
  forall r, In r (analysis_results d) ->
    exists a, In a (articles d) /\ Article.id a = AnalysisResult.article_id r.

(** No article has two analysis rows. *)
Definition at_most_one_analysis (d : Database) : Prop :=
  forall a, In a (articles d) ->
    (List.length (filter (fun r => (AnalysisResult.article_id r =? Article.id a)%Z)
                         (analysis_results d)) <= 1)%nat.

(** The committed store changes only by inserts that the constraints
    accept, and an analysis row is inserted only for a stored article. *)
Inductive evolves : Database -> Database -> Prop :=
| evolves_refl d : evolves d d
| evolves_article d u t pd b i d1 d2 :
    insert (NewArticle u t pd b) d = inl (i, d1) ->
    evolves d1 d2 ->
    evolves d d2
| evolves_analysis d a c n s i d1 d2 :
    In a (articles d) ->
    insert (NewAnalysisResult (Article.id a) c n s) d = inl (i, d1) ->
    evolves d1 d2 ->
    evolves d d2.

(** The process between two calls, with its request log. *)
Definition at_rest (d : Database) (a : bool) (c : list call) : Process :=
  {| session := resting d a; calls := c |}.

(** What [analyze_article(body_text)] returns in world [w], with
    [json_loads] for [json.loads]. *)
Definition analysis_value (json_loads : string -> option pyval)
    (w : World) (body_text : string) : pyval :=
  match fst (analyze_article json_loads w body_text start) with
  | Ret v => v
  | Raise _ => PyNone
  end.

(** [d.get(k, "")] on the items of a dict. *)
Definition dict_get (k : string) (m : list (string * pyval)) : pyval :=
  match dict_lookup k m with
  | Some x => x
  | None => PyStr ""
  end.

(** The [AnalysisResult] the pipeline builds from the mapping [m]. *)
Definition analysis_row (article_id : Z) (m : list (string * pyval))
    : instance :=
  NewAnalysisResult article_id (dict_get "company_name" m)
    (dict_get "ceo_name" m) (dict_get "summary" m).

(** The row that [analysis_row] becomes once it has its primary key. *)
Definition analysis_record (i article_id : Z) (m : list (string * pyval))
    : AnalysisResult.t :=
  {| AnalysisResult.id := i;
     AnalysisResult.article_id := article_id;
     AnalysisResult.company_name := dict_get "company_name" m;
     AnalysisResult.ceo_name := dict_get "ceo_name" m;
     AnalysisResult.summary := dict_get "summary" m |}.

(** The row of a new article once it has its primary key. *)
Definition article_record (i : Z) (url title pub_date body_text : string)
    : Article.t :=
  {| Article.id := i; Article.url := url; Article.title := title;
     Article.publication_date := pub_date; Article.body_text := body_text |}.

(** All three values of the mapping can be bound by [sqlite3]. *)
Definition bindable_mapping (m : list (string * pyval)) : bool :=
  sqlite_bindable (dict_get "company_name" m)
  && sqlite_bindable (dict_get "ceo_name" m)
  && sqlite_bindable (dict_get "summary" m).

(** One write of the pipeline: refused by the database for a reason of
    its own, or carried out as an INSERT. *)
Definition db_write (w : World) (x : write) (o : instance) (d : Database)
    : (Z * Database) + exn :=
  if db_fault w x then inr SQLAlchemyError else insert o d.

(** No two analysis rows have the same [article_id]. *)
Definition analyses_distinct (d : Database) : Prop :=
  NoDup (map AnalysisResult.article_id (analysis_results d)).

(** [s] holds no character [x]. *)
Definition lacks (x : ascii) (s : string) : Prop :=
  forall a b, s <> (a ++ String x b)%string.

(** The keys of the two tables: no two articles share a URL or a primary
    key, no two analysis rows share a primary key, and every primary key
    is positive. *)
Definition keys_distinct (d : Database) : Prop :=
  NoDup (map Article.url (articles d)) /\
  NoDup (map Article.id (articles d)) /\
  NoDup (map AnalysisResult.id (analysis_results d)) /\
  (forall a, In a (articles d) -> 0 < Article.id a) /\
  (forall r, In r (analysis_results d) -> 0 < AnalysisResult.id r).

(** The database refuses the analysis write, or [sqlite3] cannot bind
    one of the three values of the mapping. *)
Definition analysis_write_refused (w : World) (m : list (string * pyval))
    : Prop :=
  db_fault w InsertAnalysis = true \/ bindable_mapping m = false.


(** A page whose heading has white space around its text and markup
    inside. *)
Definition spaced_page : PageElement :=
  document [Tag "h1" [] [NavigableString "  Test ";
                         Comment "draft";
                         Tag "b" [] [NavigableString " Title "]];
            date_span " 1 Jan 2025 ";
            Tag "div" body_class [p_ " A. "; p_ "B."]].

(* ================================================================= *)
(** ** What the brace search finds *)

Lemma append_assoc (a b c : string) :
  ((a ++ b) ++ c = a ++ (b ++ c))%string.
Proof. induction a as [|x a IH]; simpl; [reflexivity | now rewrite IH]. Qed.

Lemma lacks_empty x : lacks x "".
Proof. intros [|y a] b; discriminate. Qed.

Lemma lacks_cons x y s : y <> x -> lacks x s -> lacks x (String y s).
Proof.
  intros Hne Hs [|z a] b; simpl; intros H; injection H as H1 H2.
  - now apply Hne.
  - now apply (Hs a b).
Qed.

Lemma from_first_open_spec s :
  match from_first_open s with
  | Some t => exists a r, s = (a ++ t)%string /\ t = String "{" r /\ lacks "{" a
  | None => lacks "{" s
  end.
Proof.
  induction s as [|x s IH]; simpl; [apply lacks_empty|].
  destruct (Ascii.eqb_spec x "{") as [-> | Hne].
  - exists "", s. repeat split. apply lacks_empty.
  - destruct (from_first_open s) as [t|].
    + destruct IH as (a & r & -> & -> & Ha).
      exists (String x a), r. repeat split. now apply lacks_cons.
    + now apply lacks_cons.
Qed.

Lemma upto_last_close_spec s :
  match upto_last_close s with
  | Some t => exists b c, t = (b ++ "}")%string /\ s = (t ++ c)%string /\ lacks "}" c
  | None => lacks "}" s
  end.
Proof.
  induction s as [|x s IH]; simpl; [apply lacks_empty|].
  destruct (upto_last_close s) as [t|].
  - destruct IH as (b & c & -> & -> & Hc).
    exists (String x b), c. repeat split. assumption.
  - destruct (Ascii.eqb_spec x "}") as [-> | Hne].
    + exists "", s. repeat split. assumption.
    + now apply lacks_cons.
Qed.

(** Whatever follows an opening brace follows the first one. *)
Lemma after_first_open a0 r :
  lacks "{" a0 ->
  forall a rest,
    (a0 ++ String "{" r = a ++ String "{" rest)%string ->
    exists a', r = (a' ++ rest)%string.
Proof.
  induction a0 as [|y a0 IH]; intros Hlacks [|x a] rest; simpl; intros H.
  - injection H as ->. now exists "".
  - injection H as <- ->. exists (a ++ "{")%string.
    now rewrite append_assoc.
  - injection H as -> _. exfalso. now apply (Hlacks "" a0).
  - injection H as -> H. apply (IH) with (a := a); [|assumption].
    intros a1 b1 ->. now apply (Hlacks (String x a1) b1).
Qed.

(** [re_search_braces] finds a match exactly when some opening brace is
    followed by a closing one; the match then starts at the first
    opening brace of the reply and ends at its last closing brace. *)
Lemma re_search_braces_spec reply :
  match re_search_braces reply with
  | Some m =>
      exists a b c,
        reply = (a ++ m ++ c)%string /\
        m = ("{" ++ b ++ "}")%string /\
        lacks "{" a /\ lacks "}" c
  | None =>
      forall a b c, reply <> (a ++ "{" ++ b ++ "}" ++ c)%string
  end.
Proof.
  unfold re_search_braces.
  pose proof (from_first_open_spec reply) as Hopen.
  destruct (from_first_open reply) as [t|].
  - destruct Hopen as (a & r & -> & -> & Ha).
    pose proof (upto_last_close_spec r) as Hclose.
    destruct (upto_last_close r) as [u|].
    + destruct Hclose as (b & c & -> & -> & Hc).
      exists a, b, c. repeat split; assumption.
    + intros a1 b1 c1 H.
      destruct (after_first_open a r Ha a1 (b1 ++ "}" ++ c1)%string H)
        as (a' & Hr).
      apply (Hclose (a' ++ b1)%string c1).
      now rewrite Hr, append_assoc.
  - intros a b c H. now apply (Hopen a (b ++ "}" ++ c)%string).
Qed.

Section Properties.

Variable json_loads : string -> option pyval.

(* --------------------------------------------------------------- *)
(** *** How the monadic steps run *)

Lemma analyze_article_run w body_text p :
  analyze_article json_loads w body_text p =
  (Ret (analysis_value json_loads w body_text), logged (Post (prompt body_text)) p).
Proof.
  unfold analysis_value, analyze_article, try_except, bind,
    requests_post, record_call, lift, ret, raise, logged.
  simpl.
  destruct (http_post w (prompt body_text)) as [|st js]; simpl; [reflexivity|].
  destruct (raises_for_status st); simpl; [reflexivity|].
  destruct (reply_of js) as [reply|e]; simpl; [|reflexivity].
  destruct (re_search_braces reply) as [js'|]; simpl; [|reflexivity].
  destruct (json_loads js'); reflexivity.
Qed.

Arguments insert : simpl never.

Ltac run_session :=
  repeat (unfold save_analysis, db_write, analysis_row, dict_get, bind, lift,
            session_add, session_commit, session_flush, session_rollback,
            before_query, query_article_by_url, query_analysis_by_article_id,
            try_except, ret, raise, at_rest, resting, with_session, logged,
            record_call;
          simpl).

Lemma save_analysis_run w aid m d c :
  save_analysis w aid (PyDict m) (at_rest d true c) =
  match db_write w InsertAnalysis (analysis_row aid m) d with
  | inl (_, d') => (Ret tt, at_rest d' true c)
  | inr e => (Raise e, at_rest d false c)
  end.
Proof.
  run_session.
  destruct (db_fault w InsertAnalysis); simpl; [reflexivity|].
  match goal with |- context [insert ?o d] => destruct (insert o d) as [[i d']|e] end;
    simpl; reflexivity.
Qed.


Lemma query_article_run url d c :
  query_article_by_url url (at_rest d true c) =
  (Ret (article_of url d), at_rest d true c).
Proof. reflexivity. Qed.

Lemma query_analysis_run i d c :
  query_analysis_by_article_id i (at_rest d true c) =
  (Ret (analysis_of i d), at_rest d true c).
Proof. reflexivity. Qed.

(** [session.add(o); session.commit()] on a resting, active session. *)
Lemma add_commit_run {A} w x o d c (k : list Z -> M A) :
  (session_add o ;; ids <- session_commit (db_fault w x) ;; k ids)%py
    (at_rest d true c) =
  match db_write w x o d with
  | inl (i, d') => k [i] (at_rest d' true c)
  | inr e => (Raise e, at_rest d false c)
  end.
Proof.
  run_session.
  destruct (db_fault w x); simpl; [reflexivity|].
  destruct (insert o d) as [[i d']|e]; simpl; reflexivity.
Qed.


(* --------------------------------------------------------------- *)
(** *** The four ways through lines 168-243 *)

(** The session is inactive: the first query raises, line 197 catches
    it, nothing changes. *)
Lemma store_article_inactive w url t pd b d c :
  store_article json_loads w url t pd b (at_rest d false c) =
  (None, at_rest d false c).
Proof. reflexivity. Qed.

(** Article and analysis are both there. *)
Lemma store_article_analysed w url t pd b d c a r :
  article_of url d = Some a ->
  analysis_of (Article.id a) d = Some r ->
  store_article json_loads w url t pd b (at_rest d true c) =
  (Some (Article.id a), at_rest d true c).
Proof.
  intros Ha Hr.
  unfold store_article, existing_article_block.
  unfold bind at 1. rewrite query_article_run, Ha.
  unfold bind at 1. unfold bind at 1. rewrite query_analysis_run, Hr.
  reflexivity.
Qed.

(** The article is there, its analysis is not: what the analyzer
    returns for [b], the body text just extracted, decides. *)
Lemma store_article_pending w url t pd b d c a :
  article_of url d = Some a ->
  analysis_of (Article.id a) d = None ->
  store_article json_loads w url t pd b (at_rest d true c) =
  let c' := (c ++ [Post (prompt b)])%list in
  let v := analysis_value json_loads w b in
  if truthy v then
    match v with
    | PyDict m =>
        match db_write w InsertAnalysis (analysis_row (Article.id a) m) d with
        | inl (_, d') => (Some (Article.id a), at_rest d' true c')
        | inr _ => (None, at_rest d false c')
        end
    | _ => (None, at_rest d true c')
    end
  else (Some (Article.id a), at_rest d true c').
Proof.
  intros Ha Hr.
  unfold store_article, existing_article_block.
  unfold bind at 1. rewrite query_article_run, Ha.
  unfold bind at 1. unfold bind at 1. rewrite query_analysis_run, Hr.
  unfold bind at 1. rewrite analyze_article_run.
  change (logged (Post (prompt b)) (at_rest d true c))
    with (at_rest d true (c ++ [Post (prompt b)])%list).
  cbv zeta.
  destruct (truthy (analysis_value json_loads w b)) eqn:Ht; [|reflexivity].
  destruct (analysis_value json_loads w b) as [| | | | |l|m] eqn:Hv;
    try reflexivity.
  rewrite save_analysis_run.
  destruct (db_write w InsertAnalysis (analysis_row (Article.id a) m) d)
    as [[i d']|e]; reflexivity.
Qed.

(** No article has this URL. *)
Lemma store_article_new w url t pd b d c :
  article_of url d = None ->
  store_article json_loads w url t pd b (at_rest d true c) =
  match db_write w InsertArticle (NewArticle url t pd b) d with
  | inr _ => (None, at_rest d true c)
  | inl (i, d1) =>
      let c' := (c ++ [Post (prompt b)])%list in
      let v := analysis_value json_loads w b in
      if truthy v then
        match v with
        | PyDict m =>
            match db_write w InsertAnalysis (analysis_row i m) d1 with
            | inl (_, d2) => (Some i, at_rest d2 true c')
            | inr _ => (None, at_rest d1 true c')
            end
        | _ => (None, at_rest d1 true c')
        end
      else (Some i, at_rest d1 true c')
  end.
Proof.
  intros Ha.
  unfold store_article, existing_article_block.
  unfold bind at 1. rewrite query_article_run, Ha.
  unfold ret at 1. unfold new_article_block.
  rewrite add_commit_run.
  destruct (db_write w InsertArticle (NewArticle url t pd b) d)
    as [[i d1]|e]; [|reflexivity].
  cbn [last].
  unfold bind at 1. unfold bind at 1. rewrite analyze_article_run.
  change (logged (Post (prompt b)) (at_rest d1 true c))
    with (at_rest d1 true (c ++ [Post (prompt b)])%list).
  cbv zeta.
  destruct (truthy (analysis_value json_loads w b)) eqn:Ht; [|reflexivity].
  destruct (analysis_value json_loads w b) as [| | | | |l|m] eqn:Hv;
    try reflexivity.
  rewrite save_analysis_run.
  destruct (db_write w InsertAnalysis (analysis_row i m) d1)
    as [[j d2]|e]; reflexivity.
Qed.


(* --------------------------------------------------------------- *)
(** *** Lines 116-166: fetch and extraction come first *)

Lemma fetch_when_page_extracts w url t pd b p :
  page_extracts w url t pd b ->
  fetch_and_store_article json_loads w url p =
  store_article json_loads w url t pd b (logged (Get url) p).
Proof.
  intros (st & soup & Hget & Hst & Ht & Hpd & Hb).
  unfold fetch_and_store_article, requests_get, bind, record_call.
  rewrite Hget, Hst. unfold ret. rewrite Ht, Hpd, Hb. reflexivity.
Qed.

Lemma fetch_when_page_fails w url p :
  page_fails w url ->
  fetch_and_store_article json_loads w url p = (None, logged (Get url) p).
Proof.
  intros [Hget | (st & soup & Hget & H)];
    unfold fetch_and_store_article, requests_get, bind, record_call;
    rewrite Hget; [reflexivity|].
  destruct (raises_for_status st) eqn:Hst; [reflexivity|].
  unfold ret.
  destruct H as [H | [H | [H | H]]]; [discriminate| | | ].
  - now rewrite H.
  - rewrite H. now destruct (extract_title soup).
  - rewrite H. destruct (extract_title soup); [|reflexivity].
    now destruct (extract_pub_date soup).
Qed.

(** Every page either yields the three fields or fails. *)
Lemma page_extracts_or_fails w url :
  (exists t pd b, page_extracts w url t pd b) \/ page_fails w url.
Proof.
  unfold page_extracts, page_fails.
  destruct (http_get w url) as [|st soup] eqn:Hget; [now right; left|].
  destruct (raises_for_status st) eqn:Hst.
  { right; right. exists st, soup. auto. }
  destruct (extract_title soup) as [t|] eqn:Ht.
  2:{ right; right. exists st, soup. auto. }
  destruct (extract_pub_date soup) as [pd|] eqn:Hpd.
  2:{ right; right. exists st, soup. auto. }
  destruct (extract_body soup) as [b|] eqn:Hb.
  2:{ right; right. exists st, soup. auto 6. }
  left. exists t, pd, b, st, soup. auto.
Qed.

Lemma idle_at_rest p :
  idle (session p) ->
  p = at_rest (committed (session p)) (active (session p)) (calls p).
Proof.
  unfold idle, at_rest. destruct p as [s c]; simpl. intros <-. reflexivity.
Qed.

Lemma at_rest_idle d a c : idle (session (at_rest d a c)).
Proof. reflexivity. Qed.

Lemma logged_at_rest x d a c :
  logged x (at_rest d a c) = at_rest d a (c ++ [x]).
Proof. reflexivity. Qed.

(* --------------------------------------------------------------- *)
(** *** The INSERT statements *)

Lemma insert_article_inl u t pd b d i d1 :
  insert (NewArticle u t pd b) d = inl (i, d1) ->
  i = next_rowid (map Article.id (articles d)) /\
  articles d1 =
    articles d ++
    [{| Article.id := i; Article.url := u; Article.title := t;
        Article.publication_date := pd; Article.body_text := b |}] /\
  analysis_results d1 = analysis_results d.
Proof.
  unfold insert.
  destruct (existsb _ (articles d)); [discriminate|].
  intros H. injection H as <- <-. simpl. auto.
Qed.

Lemma insert_analysis_inl aid c n s d i d1 :
  insert (NewAnalysisResult aid c n s) d = inl (i, d1) ->
  articles d1 = articles d /\
  analysis_results d1 =
    analysis_results d ++
    [{| AnalysisResult.id := i; AnalysisResult.article_id := aid;
        AnalysisResult.company_name := c; AnalysisResult.ceo_name := n;
        AnalysisResult.summary := s |}] /\
  ~ In aid (map AnalysisResult.article_id (analysis_results d)).
Proof.
  unfold insert.
  destruct (negb _); [discriminate|].
  destruct (existsb _ (analysis_results d)) eqn:He; [discriminate|].
  intros H. injection H as <- <-. simpl. repeat split.
  intros Hin. apply in_map_iff in Hin as (r & Hr & Hin).
  assert (existsb (fun r => AnalysisResult.article_id r =? aid)
                  (analysis_results d) = true) as Ht.
  { apply existsb_exists. exists r. split; [assumption|]. now apply Z.eqb_eq. }
  congruence.
Qed.

(** A URL that no stored article has passes the UNIQUE constraint. *)
Lemma insert_new_url u t pd b d :
  article_of u d = None ->
  exists d1,
    insert (NewArticle u t pd b) d =
    inl (next_rowid (map Article.id (articles d)), d1).
Proof.
  unfold article_of, insert. intros H.
  destruct (existsb _ (articles d)) eqn:He; [|eauto].
  apply existsb_exists in He as (a & Hin & Hu).
  apply (find_none _ _ H) in Hin. congruence.
Qed.

Lemma article_of_In url d a :
  article_of url d = Some a -> In a (articles d) /\ Article.url a = url.
Proof.
  unfold article_of. intros H. apply find_some in H as [Hin Hu].
  split; [assumption|]. now apply String.eqb_eq.
Qed.



(* --------------------------------------------------------------- *)
(** *** The committed store only evolves *)

Lemma evolves_trans d1 d2 d3 :
  evolves d1 d2 -> evolves d2 d3 -> evolves d1 d3.
Proof.
  induction 1 as [d | d u t pd b i d1 d2 Hi _ IH
                    | d a c n s i d1 d2 Ha Hi _ IH]; intros H3.
  - assumption.
  - eapply evolves_article; [exact Hi | now apply IH].
  - eapply evolves_analysis; [exact Ha | exact Hi | now apply IH].
Qed.

Lemma db_write_inl w x o d r :
  db_write w x o d = inl r -> insert o d = inl r.
Proof. unfold db_write. now destruct (db_fault w x). Qed.

Lemma store_article_step w url t pd b d a c :
  exists d' a' c',
    snd (store_article json_loads w url t pd b (at_rest d a c)) =
      at_rest d' a' c' /\
    evolves d d' /\
    (c' = c \/ c' = c ++ [Post (prompt b)]).
Proof.
  destruct a.
  2:{ rewrite store_article_inactive. exists d, false, c.
      split; [reflexivity | split; [constructor | now left]]. }
  destruct (article_of url d) as [x|] eqn:Hx.
  - destruct (analysis_of (Article.id x) d) as [r|] eqn:Hr.
    + rewrite (store_article_analysed _ _ _ _ _ _ _ _ _ Hx Hr).
      exists d, true, c. split; [reflexivity | split; [constructor | now left]].
    + rewrite (store_article_pending _ _ _ _ _ _ _ _ Hx Hr). cbv zeta.
      destruct (truthy (analysis_value json_loads w b)).
      2:{ eexists d, true, _.
          split; [reflexivity | split; [constructor | now right]]. }
      destruct (analysis_value json_loads w b) as [| | | | |l|m];
        try (eexists d, true, _;
             split; [reflexivity | split; [constructor | now right]]).
      destruct (db_write w InsertAnalysis (analysis_row (Article.id x) m) d)
        as [[i d']|e] eqn:Hw.
      * eexists d', true, _. split; [reflexivity | split; [|now right]].
        apply db_write_inl in Hw.
        eapply evolves_analysis; [| exact Hw | constructor].
        now apply article_of_In in Hx.
      * eexists d, false, _.
        split; [reflexivity | split; [constructor | now right]].
  - rewrite (store_article_new _ _ _ _ _ _ _ Hx).
    destruct (db_write w InsertArticle (NewArticle url t pd b) d)
      as [[i d1]|e] eqn:Hw1.
    2:{ exists d, true, c.
        split; [reflexivity | split; [constructor | now left]]. }
    apply db_write_inl in Hw1.
    assert (evolves d d1) as Hd1
      by (eapply evolves_article; [exact Hw1 | constructor]).
    cbv zeta.
    destruct (truthy (analysis_value json_loads w b)).
    2:{ eexists d1, true, _.
        split; [reflexivity | split; [assumption | now right]]. }
    destruct (analysis_value json_loads w b) as [| | | | |l|m];
      try (eexists d1, true, _;
           split; [reflexivity | split; [assumption | now right]]).
    destruct (db_write w InsertAnalysis (analysis_row i m) d1)
      as [[j d2]|e] eqn:Hw2.
    2:{ eexists d1, true, _.
        split; [reflexivity | split; [assumption | now right]]. }
    eexists d2, true, _. split; [reflexivity | split; [|now right]].
    apply db_write_inl in Hw2.
    apply (evolves_trans _ _ _ Hd1).
    destruct (insert_article_inl _ _ _ _ _ _ _ Hw1) as (_ & Harts & _).
    eapply (evolves_analysis d1
              {| Article.id := i; Article.url := url; Article.title := t;
                 Article.publication_date := pd; Article.body_text := b |});
      [ rewrite Harts; apply in_or_app; right; now left
      | exact Hw2
      | constructor ].
Qed.

Lemma fetch_and_store_step w url p :
  idle (session p) ->
  exists d' a' more,
    snd (fetch_and_store_article json_loads w url p) =
      at_rest d' a' (calls p ++ Get url :: more) /\
    evolves (committed (session p)) d'.
Proof.
  intros Hidle. pose proof (idle_at_rest p Hidle) as Hp.
  set (d := committed (session p)) in *.
  set (a := active (session p)) in *.
  set (c := calls p) in *.
  clearbody d a c. subst p. clear Hidle.
  destruct (page_extracts_or_fails w url) as [(t & pd & b & H) | H].
  - rewrite (fetch_when_page_extracts _ _ _ _ _ _ H), logged_at_rest.
    destruct (store_article_step w url t pd b d a (c ++ [Get url]))
      as (d' & a' & c' & Hs & Hev & Hc).
    rewrite Hs. destruct Hc as [-> | ->].
    + exists d', a', []. split; [reflexivity | assumption].
    + exists d', a', [Post (prompt b)].
      rewrite <- app_assoc. split; [reflexivity | assumption].
  - rewrite (fetch_when_page_fails _ _ _ H), logged_at_rest.
    exists d, a, []. split; [reflexivity | constructor].
Qed.

Lemma main_step runs :
  forall p,
    idle (session p) ->
    idle (session (snd (main json_loads runs p))) /\
    evolves (committed (session p))
            (committed (session (snd (main json_loads runs p)))).
Proof.
  induction runs as [|[w url] rest IH]; intros p Hidle; simpl.
  - split; [assumption | constructor].
  - destruct (fetch_and_store_step w url p Hidle) as (d' & a' & c' & Hp & Hev).
    destruct (fetch_and_store_article json_loads w url p) as [r p1].
    simpl in Hp. subst p1.
    destruct (IH (at_rest d' a' (calls p ++ Get url :: c'))
                 (at_rest_idle _ _ _)) as [Hi He].
    destruct (main json_loads rest (at_rest d' a' (calls p ++ Get url :: c')))
      as [ids p2].
    simpl in *. split; [assumption|].
    eapply evolves_trans; eassumption.
Qed.

(** Every state the driver reaches from a fresh session is idle. *)
Lemma reachable_idle runs :
  idle (session (snd (main json_loads runs start))).
Proof. now apply main_step. Qed.

(** Stored articles are never rewritten, dropped or reordered. *)
Lemma evolves_articles d d' :
  evolves d d' -> exists extra, articles d' = articles d ++ extra.
Proof.
  induction 1 as [d | d u t pd b i d1 d2 Hi _ [extra IH]
                    | d a c n s i d1 d2 _ Hi _ [extra IH]].
  - exists []. now rewrite app_nil_r.
  - apply insert_article_inl in Hi as (_ & Harts & _).
    rewrite IH, Harts, <- app_assoc. eauto.
  - apply insert_analysis_inl in Hi as (Harts & _).
    rewrite IH, Harts. eauto.
Qed.

Lemma evolves_invariant d d' :
  evolves d d' ->
  analyses_have_articles d /\ analyses_distinct d ->
  analyses_have_articles d' /\ analyses_distinct d'.
Proof.
  unfold analyses_have_articles, analyses_distinct.
  induction 1 as [d | d u t pd b i d1 d2 Hi _ IH
                    | d a c n s i d1 d2 Ha Hi _ IH];
    intros [Href Hnd]; [auto | |]; apply IH.
  - apply insert_article_inl in Hi as (_ & Harts & Hres).
    rewrite Harts, Hres. split; [|assumption].
    intros r Hr. destruct (Href r Hr) as (x & Hx & Hid).
    exists x. split; [apply in_or_app; now left | assumption].
  - apply insert_analysis_inl in Hi as (Harts & Hres & Hfresh).
    rewrite Harts, Hres. split.
    + intros r Hr. apply in_app_or in Hr as [Hr | [<- | []]].
      * now apply Href.
      * exists a. now split.
    + rewrite map_app. simpl.
      apply NoDup_app; [assumption | repeat constructor; intros [] | ].
      intros x Hx [<- | []]. contradiction.
Qed.

Lemma distinct_at_most_one d :
  analyses_distinct d -> at_most_one_analysis d.
Proof.
  unfold analyses_distinct, at_most_one_analysis. intros Hnd a _.
  induction (analysis_results d) as [|r l IH]; simpl; [lia|].
  inversion Hnd as [|? ? Hnotin Hnd']; subst.
  destruct (AnalysisResult.article_id r =? Article.id a) eqn:He.
  - apply Z.eqb_eq in He. simpl.
    assert (filter (fun r0 => AnalysisResult.article_id r0 =? Article.id a) l
            = []) as ->; [|simpl; lia].
    destruct (filter _ l) as [|r' l'] eqn:Hf; [reflexivity|].
    exfalso. apply Hnotin.
    assert (In r' (filter (fun r0 => AnalysisResult.article_id r0 =? Article.id a) l))
      as Hin by (rewrite Hf; now left).
    apply filter_In in Hin as [Hin Heq]. apply Z.eqb_eq in Heq.
    rewrite He, <- Heq. now apply in_map.
  - now apply IH.
Qed.


(* --------------------------------------------------------------- *)
(** *** The claims *)

(** C4.  In every state reached from a fresh database by any sequence
    of [fetch_and_store_article] calls, in any worlds, every
    AnalysisResult row refers to a stored Article, and no Article has
    more than one AnalysisResult row. *)
Theorem reachable_store_integrity (runs : list (World * string)) :
  let d := committed (session (snd (main json_loads runs start))) in
  analyses_have_articles d /\ at_most_one_analysis d.
Proof.
  cbv zeta.
  destruct (main_step runs start (eq_refl : idle (session start)))
    as [_ Hev].
  apply evolves_invariant in Hev as [Href Hnd].
  - split; [assumption | now apply distinct_at_most_one].
  - split; [intros r [] | constructor].
Qed.

(** C8.  Whatever calls follow, in whatever worlds (so also when the
    page served later differs from what is stored), the Article rows
    already stored stay as they are, in place: the table after the
    calls is the table before them with rows appended. *)
Theorem stored_articles_are_kept (runs : list (World * string)) (p : Process) :
  idle (session p) ->
  exists extra,
    stored_articles (snd (main json_loads runs p)) =
    stored_articles p ++ extra.
Proof.
  intros Hidle. unfold stored_articles.
  destruct (main_step runs p Hidle) as [_ Hev].
  now apply evolves_articles.
Qed.

(** C7.  Also for a URL whose Article row exists, the call starts with
    the HTTP GET; and when the fetch fails or a selector finds nothing
    on the page served now, it returns [None], sends no request to the
    analysis service and leaves the session as it was. *)
Theorem refetch_comes_first w url p a :
  idle (session p) ->
  In a (stored_articles p) ->
  Article.url a = url ->
  (exists more,
     calls (snd (fetch_and_store_article json_loads w url p)) =
     calls p ++ Get url :: more) /\
  (page_fails w url ->
   fetch_and_store_article json_loads w url p = (None, logged (Get url) p)).
Proof.
  intros Hidle _ _. split.
  - destruct (fetch_and_store_step w url p Hidle) as (d' & a' & more & Hp & _).
    exists more. now rewrite Hp.
  - apply fetch_when_page_fails.
Qed.

(** C5, amended.  When the page has no [<h1>], or no
    [<span class="d-ib mr-05">], or no body container, or its body
    container has no [<p>] element at any depth, the call returns
    [None] and leaves the session as it was: no row is stored. *)
Theorem missing_markup_stores_nothing w url p status_code soup :
  http_get w url = GetResponse status_code soup ->
  find "h1" None soup = None \/
  find "span" (Some "d-ib mr-05") soup = None \/
  find "div" (Some "kInstance-Body instance-box-mb") soup = None \/
  (exists body_div,
     find "div" (Some "kInstance-Body instance-box-mb") soup = Some body_div /\
     find_all "p" None body_div = []) ->
  fetch_and_store_article json_loads w url p = (None, logged (Get url) p) /\
  reports_success (fst (fetch_and_store_article json_loads w url p)) = false /\
  session (snd (fetch_and_store_article json_loads w url p)) = session p.
Proof.
  intros Hget H.
  assert (page_fails w url) as Hf.
  { right. exists status_code, soup. split; [assumption|].
    right. unfold extract_title, extract_pub_date, extract_body.
    destruct H as [-> | [-> | [-> | (bd & -> & ->)]]]; auto. }
  rewrite (fetch_when_page_fails _ _ _ Hf). auto.
Qed.

(** C3, amended.  When the Article for the URL and its AnalysisResult
    are both stored, the call changes nothing in the session and sends
    nothing to the analysis service; and when the session is usable
    and the page is again served and yields the three fields, it
    returns the identity of the stored Article. *)
Theorem processed_url_is_left_alone w url p a r t pd b :
  idle (session p) ->
  article_of url (committed (session p)) = Some a ->
  analysis_of (Article.id a) (committed (session p)) = Some r ->
  snd (fetch_and_store_article json_loads w url p) = logged (Get url) p /\
  (active (session p) = true ->
   page_extracts w url t pd b ->
   fst (fetch_and_store_article json_loads w url p) = Some (Article.id a)).
Proof.
  intros Hidle Ha Hr. pose proof (idle_at_rest p Hidle) as Hp.
  set (d := committed (session p)) in *.
  set (act := active (session p)) in *.
  set (c := calls p) in *.
  clearbody d act c. subst p. clear Hidle.
  split.
  - destruct (page_extracts_or_fails w url) as [(t' & pd' & b' & H) | H].
    + rewrite (fetch_when_page_extracts _ _ _ _ _ _ H), logged_at_rest.
      destruct act.
      * now rewrite (store_article_analysed _ _ _ _ _ _ _ _ _ Ha Hr).
      * now rewrite store_article_inactive.
    + now rewrite (fetch_when_page_fails _ _ _ H).
  - simpl. intros -> H.
    rewrite (fetch_when_page_extracts _ _ _ _ _ _ H), logged_at_rest.
    now rewrite (store_article_analysed _ _ _ _ _ _ _ _ _ Ha Hr).
Qed.


Lemma insert_analysis_row aid m d i d' :
  insert (analysis_row aid m) d = inl (i, d') ->
  articles d' = articles d /\
  analysis_results d' = analysis_results d ++ [analysis_record i aid m].
Proof.
  intros H. apply insert_analysis_inl in H as (H1 & H2 & _). now split.
Qed.

(** An article without analysis row passes the UNIQUE constraint on
    [article_id]. *)
Lemma insert_first_analysis aid m d :
  analysis_of aid d = None ->
  bindable_mapping m = true ->
  exists i d', insert (analysis_row aid m) d = inl (i, d').
Proof.
  unfold analysis_of, bindable_mapping, analysis_row, insert.
  intros Hnone ->. simpl.
  destruct (existsb _ (analysis_results d)) eqn:He; [|eauto].
  apply existsb_exists in He as (r & Hin & Hr).
  apply (find_none _ _ Hnone) in Hin. congruence.
Qed.

Lemma analysis_value_eq w b :
  analysis_value json_loads w b =
  match http_post w (prompt b) with
  | PostRaises => PyNone
  | PostResponse status_code json =>
      if raises_for_status status_code then PyNone
      else
        match reply_of json with
        | inr _ => PyNone
        | inl reply =>
            match re_search_braces reply with
            | None => PyNone
            | Some json_str =>
                match json_loads json_str with
                | Some v => v
                | None => PyNone
                end
            end
        end
  end.
Proof.
  unfold analysis_value, analyze_article, try_except, bind,
    requests_post, record_call, lift, ret, raise.
  simpl.
  destruct (http_post w (prompt b)) as [|st js]; simpl; [reflexivity|].
  destruct (raises_for_status st); simpl; [reflexivity|].
  destruct (reply_of js) as [reply|e]; simpl; [|reflexivity].
  destruct (re_search_braces reply) as [js'|]; simpl; [|reflexivity].
  destruct (json_loads js'); reflexivity.
Qed.

Lemma next_rowid_positive ids : 0 < next_rowid ids.
Proof.
  unfold next_rowid.
  assert (0 <= fold_right Z.max 0 ids); [|lia].
  induction ids; simpl; lia.
Qed.

(** The analysis rows after lines 168-243: the same, or one more,
    built from the mapping the analyzer returned for [b]. *)
Lemma store_article_analyses w url t pd b d a c :
  let p' := snd (store_article json_loads w url t pd b (at_rest d a c)) in
  stored_analyses p' = analysis_results d \/
  exists i aid m,
    analysis_value json_loads w b = PyDict m /\
    stored_analyses p' = analysis_results d ++ [analysis_record i aid m].
Proof.
  cbv zeta. unfold stored_analyses.
  destruct a; [|left; now rewrite store_article_inactive].
  destruct (article_of url d) as [x|] eqn:Hx.
  - destruct (analysis_of (Article.id x) d) as [r|] eqn:Hr.
    + left. now rewrite (store_article_analysed _ _ _ _ _ _ _ _ _ Hx Hr).
    + rewrite (store_article_pending _ _ _ _ _ _ _ _ Hx Hr). cbv zeta.
      destruct (truthy (analysis_value json_loads w b)); [|now left].
      destruct (analysis_value json_loads w b) as [| | | | |l|m]; try (now left).
      destruct (db_write w InsertAnalysis (analysis_row (Article.id x) m) d)
        as [[i d']|e] eqn:Hw; [|now left].
      right. exists i, (Article.id x), m. split; [reflexivity|].
      apply db_write_inl, insert_analysis_row in Hw. apply Hw.
  - rewrite (store_article_new _ _ _ _ _ _ _ Hx).
    destruct (db_write w InsertArticle (NewArticle url t pd b) d)
      as [[i d1]|e] eqn:Hw1; [|now left].
    apply db_write_inl, insert_article_inl in Hw1 as (_ & _ & Hres).
    cbv zeta. rewrite <- Hres.
    destruct (truthy (analysis_value json_loads w b)); [|now left].
    destruct (analysis_value json_loads w b) as [| | | | |l|m]; try (now left).
    destruct (db_write w InsertAnalysis (analysis_row i m) d1)
      as [[j d2]|e] eqn:Hw; [|now left].
    right. exists j, i, m. split; [reflexivity|].
    apply db_write_inl, insert_analysis_row in Hw. apply Hw.
Qed.

(** C9.  An AnalysisResult row that a call stores is built from the
    mapping the analyzer returned in that call; for each of the keys
    [company_name], [ceo_name] and [summary] that the mapping omits,
    the row holds the empty string. *)
Theorem omitted_keys_are_stored_empty w url p t pd b m r :
  idle (session p) ->
  page_extracts w url t pd b ->
  analysis_value json_loads w b = PyDict m ->
  In r (stored_analyses (snd (fetch_and_store_article json_loads w url p))) ->
  ~ In r (stored_analyses p) ->
  (dict_lookup "company_name" m = None ->
   AnalysisResult.company_name r = PyStr "") /\
  (dict_lookup "ceo_name" m = None ->
   AnalysisResult.ceo_name r = PyStr "") /\
  (dict_lookup "summary" m = None ->
   AnalysisResult.summary r = PyStr "").
Proof.
  intros Hidle Hpage Hv Hin Hnew.
  rewrite (idle_at_rest p Hidle) in Hin.
  rewrite (fetch_when_page_extracts _ _ _ _ _ _ Hpage), logged_at_rest in Hin.
  destruct (store_article_analyses w url t pd b (committed (session p))
              (active (session p)) (calls p ++ [Get url]))
    as [Hsame | (i & aid & m' & Hv' & Hmore)].
  - rewrite Hsame in Hin. contradiction.
  - rewrite Hmore in Hin. apply in_app_or in Hin as [Hin | [<- | []]];
      [contradiction|].
    assert (m' = m) as -> by congruence.
    unfold analysis_record, dict_get; simpl.
    repeat split; intros ->; reflexivity.
Qed.


(** C1, amended.  When the Article for the URL is stored without an
    AnalysisResult, the session is usable and the page is again served
    and yields the three fields, the call sends the analyzer the
    prompt built from [b], the body text just extracted (the stored
    text is not read), and leaves the Article rows alone.  When the
    analyzer returns a falsy value it returns the stored Article's
    identity and stores nothing; when it returns a non-empty mapping
    whose values can be bound and the database takes the write, it
    returns that identity and appends the AnalysisResult row built
    from the mapping. *)
Theorem pending_analysis_is_completed w url p a t pd b :
  idle (session p) ->
  active (session p) = true ->
  article_of url (committed (session p)) = Some a ->
  analysis_of (Article.id a) (committed (session p)) = None ->
  page_extracts w url t pd b ->
  let out := fetch_and_store_article json_loads w url p in
  let v := analysis_value json_loads w b in
  calls (snd out) = calls p ++ [Get url; Post (prompt b)] /\
  stored_articles (snd out) = stored_articles p /\
  (truthy v = false ->
   fst out = Some (Article.id a) /\ session (snd out) = session p) /\
  (forall m,
     v = PyDict m -> m <> [] ->
     bindable_mapping m = true ->
     db_fault w InsertAnalysis = false ->
     fst out = Some (Article.id a) /\
     exists i,
       stored_analyses (snd out) =
       stored_analyses p ++ [analysis_record i (Article.id a) m]).
Proof.
  intros Hidle Hact Ha Hr Hpage. cbv zeta.
  pose proof (idle_at_rest p Hidle) as Hp.
  unfold stored_articles, stored_analyses.
  set (d := committed (session p)) in *.
  set (act := active (session p)) in *.
  set (c := calls p) in *.
  clearbody d act c. subst p act. clear Hidle.
  rewrite (fetch_when_page_extracts _ _ _ _ _ _ Hpage), logged_at_rest.
  rewrite (store_article_pending _ _ _ _ _ _ _ _ Ha Hr). cbv zeta.
  assert (forall d' act', calls (at_rest d' act' ((c ++ [Get url]) ++ [Post (prompt b)]))
                          = c ++ [Get url; Post (prompt b)]) as Hcalls
    by (intros; simpl; now rewrite <- app_assoc).
  destruct (truthy (analysis_value json_loads w b)) eqn:Ht.
  - destruct (analysis_value json_loads w b) as [| | | | |l|m] eqn:Hv;
      try (split; [apply Hcalls|];
           split; [reflexivity|];
           split; [discriminate | intros m' Hm'; discriminate]).
    destruct (db_write w InsertAnalysis (analysis_row (Article.id a) m) d)
      as [[i d']|e] eqn:Hw.
    + apply db_write_inl, insert_analysis_row in Hw as [Harts Hres].
      split; [apply Hcalls|].
      split; [exact Harts|].
      split; [discriminate|].
      intros m' Hm' _ _ _. assert (m' = m) as -> by congruence.
      split; [reflexivity|]. exists i. exact Hres.
    + split; [apply Hcalls|].
      split; [reflexivity|].
      split; [discriminate|].
      intros m' Hm' _ Hb Hf. exfalso.
      assert (m' = m) as -> by congruence.
      unfold db_write in Hw. rewrite Hf in Hw.
      destruct (insert_first_analysis _ _ _ Hr Hb) as (i & d' & Hi).
      congruence.
  - split; [apply Hcalls|].
    split; [reflexivity|].
    split; [intros _; split; reflexivity|].
    intros m Hm Hne. exfalso. rewrite Hm in Ht. simpl in Ht.
    destruct m; [now apply Hne | discriminate].
Qed.


(** C6.  For a URL with no stored Article, on a usable session, when
    the page yields the three fields and the database takes the
    article write, and the reply of the analysis service holds no
    [{...}] span, or a span that [json.loads] rejects: the call
    returns the identity of the new Article row (the driver reports
    success), the row is appended with the extracted fields, no
    AnalysisResult row is added, and the session stays usable. *)
Theorem unparsable_reply_keeps_article
    w url p t pd b status_code json reply :
  idle (session p) ->
  active (session p) = true ->
  article_of url (committed (session p)) = None ->
  page_extracts w url t pd b ->
  db_fault w InsertArticle = false ->
  http_post w (prompt b) = PostResponse status_code json ->
  raises_for_status status_code = false ->
  reply_of json = inl reply ->
  re_search_braces reply = None \/
  (exists json_str,
     re_search_braces reply = Some json_str /\ json_loads json_str = None) ->
  let out := fetch_and_store_article json_loads w url p in
  exists i,
    fst out = Some i /\
    reports_success (fst out) = true /\
    stored_articles (snd out) =
      stored_articles p ++ [article_record i url t pd b] /\
    stored_analyses (snd out) = stored_analyses p /\
    idle (session (snd out)) /\
    active (session (snd out)) = true.
Proof.
  intros Hidle Hact Ha Hpage Hfault Hpost Hst Hreply Hspan. cbv zeta.
  pose proof (idle_at_rest p Hidle) as Hp.
  unfold stored_articles, stored_analyses.
  set (d := committed (session p)) in *.
  set (act := active (session p)) in *.
  set (c := calls p) in *.
  clearbody d act c. subst p act. clear Hidle.
  assert (analysis_value json_loads w b = PyNone) as Hv.
  { rewrite analysis_value_eq, Hpost, Hst, Hreply.
    destruct Hspan as [-> | (js & -> & ->)]; reflexivity. }
  rewrite (fetch_when_page_extracts _ _ _ _ _ _ Hpage), logged_at_rest.
  rewrite (store_article_new _ _ _ _ _ _ _ Ha).
  unfold db_write. rewrite Hfault.
  destruct (insert_new_url url t pd b d Ha) as (d1 & Hi). rewrite Hi.
  cbv zeta. rewrite Hv. simpl.
  apply insert_article_inl in Hi as (_ & Harts & Hres).
  exists (next_rowid (map Article.id (articles d))).
  split; [reflexivity|].
  split.
  { pose proof (next_rowid_positive (map Article.id (articles d))).
    destruct (next_rowid (map Article.id (articles d)) =? 0) eqn:E;
      [apply Z.eqb_eq in E; lia | reflexivity]. }
  repeat split; assumption.
Qed.

End Properties.

(* ================================================================= *)
(** ** Extraction on the example page *)

Lemma get_text_single name cls s :
  get_text (Tag name cls [NavigableString s]) = py_strip s.
Proof.
  unfold get_text, stripped_strings, py_join. simpl.
  destruct (String.eqb_spec (py_strip s) "") as [-> | _]; reflexivity.
Qed.

(** C10, amended.  When the first [<h1>] of the page reads
    ["Test Title"], a span matches the date selector, and the first
    body container holds exactly two [<p>] elements reading ["A."] and
    ["B."] (white space around the texts aside), extraction yields the
    title ["Test Title"] and the body text ["A."], a blank line,
    ["B."]. *)
Theorem first_matches_are_extracted
    soup cls s0 date_tag body_div c1 s1 c2 s2 :
  find "h1" None soup = Some (Tag "h1" cls [NavigableString s0]) ->
  py_strip s0 = "Test Title" ->
  find "span" (Some "d-ib mr-05") soup = Some date_tag ->
  find "div" (Some "kInstance-Body instance-box-mb") soup = Some body_div ->
  find_all "p" None body_div =
    [Tag "p" c1 [NavigableString s1]; Tag "p" c2 [NavigableString s2]] ->
  py_strip s1 = "A." ->
  py_strip s2 = "B." ->
  extract_title soup = Some "Test Title" /\
  extract_pub_date soup = Some (get_text date_tag) /\
  extract_body soup = Some ("A." ++ LF ++ LF ++ "B.")%string.
Proof.
  intros Hh1 H0 Hspan Hdiv Hps H1 H2.
  unfold extract_title, extract_pub_date, extract_body.
  rewrite Hh1, Hspan, Hdiv, Hps. simpl map.
  rewrite !get_text_single, H0, H1, H2. repeat split.
Qed.

(** The example page of the specification. *)
Lemma first_matches_are_extracted_on_test_page :
  extract_title test_page = Some "Test Title" /\
  extract_pub_date test_page = Some (get_text (date_span "1 Jan 2025")) /\
  extract_body test_page = Some ("A." ++ LF ++ LF ++ "B.")%string.
Proof.
  apply (first_matches_are_extracted test_page [] "Test Title"
           (date_span "1 Jan 2025")
           (Tag "div" body_class [p_ "A."; p_ "B."]) [] "A." [] "B.");
    reflexivity.
Defined.

(** C10 as stated fails: the page holds [<h1>Test Title</h1>], a date
    span and a body container with the two paragraphs, yet the title
    extracted is that of the [<h1>] in front. *)
Lemma later_h1_is_not_the_title :
  In (h1 "Test Title") (descendants two_h1_page) /\
  find "span" (Some "d-ib mr-05") two_h1_page = Some (date_span "1 Jan 2025") /\
  find "div" (Some "kInstance-Body instance-box-mb") two_h1_page =
    Some (Tag "div" body_class [p_ "A."; p_ "B."]) /\
  find_all "p" None (Tag "div" body_class [p_ "A."; p_ "B."]) =
    [p_ "A."; p_ "B."] /\
  extract_title two_h1_page = Some "Site" /\
  extract_title two_h1_page <> Some "Test Title".
Proof.
  repeat split; try reflexivity.
  - simpl. auto 6.
  - discriminate.
Qed.

(* ================================================================= *)
(** ** The pipeline on the sample worlds *)

Lemma serving_extracts soup content url t pd b :
  extract_title soup = Some t ->
  extract_pub_date soup = Some pd ->
  extract_body soup = Some b ->
  page_extracts (serving soup content) url t pd b.
Proof. intros. exists 200, soup. repeat split; assumption. Qed.

Lemma stored_only_idle : idle (session stored_only).
Proof. reflexivity. Qed.

Lemma processed_idle : idle (session processed).
Proof. reflexivity. Qed.

(** C1 as stated fails.  The Article of [url1] is stored with the text
    [test_body] and without analysis, and the service would answer the
    prompt built from that stored text.  The page now reads
    [edited_body]: the call sends the prompt built from [edited_body],
    gets no answer and stores no analysis.  And when the site is down
    the call returns [None] without asking the service at all. *)
Lemma analyzer_gets_the_fetched_text :
  let w := answering_only edited_page test_body acme_json in
  article_of url1 (committed (session stored_only)) =
    Some (article_record 1 url1 "Test Title" "1 Jan 2025" test_body) /\
  stored_analyses stored_only = [] /\
  analysis_value sample_loads w test_body = acme /\
  calls (snd (fetch_and_store_article sample_loads w url1 stored_only)) =
    calls stored_only ++ [Get url1; Post (prompt edited_body)] /\
  stored_analyses (snd (fetch_and_store_article sample_loads w url1 stored_only))
    = [] /\
  fetch_and_store_article sample_loads site_down url1 stored_only =
    (None, logged (Get url1) stored_only).
Proof. vm_compute. repeat split. Qed.

(** The stored article of [url1] is completed from the edited page. *)
Lemma pending_analysis_is_completed_on_edited_page :
  let w := serving edited_page acme_json in
  let out := fetch_and_store_article sample_loads w url1 stored_only in
  calls (snd out) = calls stored_only ++ [Get url1; Post (prompt edited_body)] /\
  stored_articles (snd out) = stored_articles stored_only /\
  fst out = Some 1 /\
  exists i,
    stored_analyses (snd out) =
    stored_analyses stored_only ++
    [analysis_record i 1 [("company_name", PyStr "Acme")]].
Proof.
  cbv zeta.
  destruct (pending_analysis_is_completed sample_loads
              (serving edited_page acme_json) url1 stored_only
              (article_record 1 url1 "Test Title" "1 Jan 2025" test_body)
              "Test Title" "1 Jan 2025" edited_body
              stored_only_idle eq_refl eq_refl eq_refl
              (serving_extracts edited_page acme_json url1 _ _ _
                 eq_refl eq_refl eq_refl))
    as (Hcalls & Harts & _ & Hattach).
  destruct (Hattach [("company_name", PyStr "Acme")] eq_refl
              ltac:(discriminate) eq_refl eq_refl) as [Hid Hrows].
  repeat split; assumption.
Defined.

(** C2.  The Article of [url1] is stored without analysis.  A call on
    [url1] in which the database refuses the analysis write returns
    [None] and leaves the committed rows as they were, but line 197
    catches the exception without [session.rollback()]: the session
    stays inactive, and the next call, on another URL and in a world
    where everything works, returns [None] and stores nothing, while
    the same call made instead of the failed one stores the article.
    On the new-article path (lines 236-243) the same refusal is
    followed by a rollback, and the next call goes through. *)
Theorem write_failure_without_rollback :
  let faulty := analysis_write_fails test_page acme_json in
  let healthy := serving test_page acme_json in
  let failed := fetch_and_store_article sample_loads faulty url1 stored_only in
  let next := fetch_and_store_article sample_loads healthy url2 (snd failed) in
  let failed_new := fetch_and_store_article sample_loads faulty url2 start in
  let next_new := fetch_and_store_article sample_loads healthy url1 (snd failed_new) in
  (fst failed = None /\
   committed (session (snd failed)) = committed (session stored_only) /\
   active (session (snd failed)) = false) /\
  (fst next = None /\
   committed (session (snd next)) = committed (session stored_only)) /\
  fst (fetch_and_store_article sample_loads healthy url2 stored_only) = Some 2 /\
  (fst failed_new = None /\
   active (session (snd failed_new)) = true /\
   fst next_new = Some 2).
Proof. vm_compute. repeat split. Qed.

(** C3 as stated fails.  The first call on [url1] returned identity 1
    and stored the Article and its AnalysisResult; a later call on
    [url1] while the site is down returns no identity. *)
Lemma refetch_failure_returns_no_identity :
  fst (fetch_and_store_article sample_loads
         (serving test_page ("Here is the result: " ++ acme_json)%string)
         url1 start) = Some 1 /\
  stored_articles processed =
    [article_record 1 url1 "Test Title" "1 Jan 2025" test_body] /\
  stored_analyses processed =
    [analysis_record 1 1 [("company_name", PyStr "Acme")]] /\
  fst (fetch_and_store_article sample_loads site_down url1 processed) = None.
Proof. vm_compute. repeat split. Qed.

(** A processed URL whose page was edited since. *)
Lemma processed_url_is_left_alone_on_edited_page :
  let w := serving edited_page acme_json in
  snd (fetch_and_store_article sample_loads w url1 processed) =
    logged (Get url1) processed /\
  fst (fetch_and_store_article sample_loads w url1 processed) = Some 1.
Proof.
  cbv zeta.
  destruct (processed_url_is_left_alone sample_loads
              (serving edited_page acme_json) url1 processed
              (article_record 1 url1 "Test Title" "1 Jan 2025" test_body)
              (analysis_record 1 1 [("company_name", PyStr "Acme")])
              "Test Title" "1 Jan 2025" edited_body
              processed_idle eq_refl eq_refl)
    as [Hsame Hid].
  split; [exact Hsame|].
  apply Hid; [reflexivity|].
  apply serving_extracts; reflexivity.
Defined.

(** C5 as stated fails.  The body container of [nested_p_page] has no
    [<p>] child (its paragraph sits inside a [<blockquote>]), yet
    extraction succeeds and the Article row is stored. *)
Lemma nested_paragraph_is_extracted :
  let body_div := Tag "div" body_class [Tag "blockquote" [] [p_ "A."]] in
  let out := fetch_and_store_article sample_loads
               (serving nested_p_page "no json here") url1 start in
  find "div" (Some "kInstance-Body instance-box-mb") nested_p_page =
    Some body_div /\
  paragraph_children body_div = [] /\
  fst out = Some 1 /\
  stored_articles (snd out) =
    [article_record 1 url1 "Test Title" "1 Jan 2025" "A."].
Proof. vm_compute. repeat split. Qed.

(** A page without [<h1>]. *)
Lemma missing_markup_stores_nothing_on_untitled_page :
  let w := serving untitled_page acme_json in
  fetch_and_store_article sample_loads w url1 start =
    (None, logged (Get url1) start) /\
  reports_success (fst (fetch_and_store_article sample_loads w url1 start))
    = false /\
  session (snd (fetch_and_store_article sample_loads w url1 start)) =
    session start.
Proof.
  cbv zeta.
  apply (missing_markup_stores_nothing sample_loads
           (serving untitled_page acme_json) url1 start 200 untitled_page).
  - reflexivity.
  - left. reflexivity.
Defined.

(** A reply without braces, on a fresh database. *)
Lemma unparsable_reply_keeps_article_on_test_page :
  let out := fetch_and_store_article sample_loads
               (serving test_page "no json here") url1 start in
  exists i,
    fst out = Some i /\
    reports_success (fst out) = true /\
    stored_articles (snd out) =
      stored_articles start ++
      [article_record i url1 "Test Title" "1 Jan 2025" test_body] /\
    stored_analyses (snd out) = stored_analyses start /\
    idle (session (snd out)) /\
    active (session (snd out)) = true.
Proof.
  apply (unparsable_reply_keeps_article sample_loads
           (serving test_page "no json here") url1 start
           "Test Title" "1 Jan 2025" test_body
           200 (Some (completion "no json here")) "no json here").
  - reflexivity.
  - reflexivity.
  - reflexivity.
  - apply serving_extracts; reflexivity.
  - reflexivity.
  - reflexivity.
  - reflexivity.
  - reflexivity.
  - left. reflexivity.
Defined.

(** The stored article of [url1] while the site is down. *)
Lemma refetch_comes_first_when_site_is_down :
  (exists more,
     calls (snd (fetch_and_store_article sample_loads site_down url1 stored_only))
     = calls stored_only ++ Get url1 :: more) /\
  fetch_and_store_article sample_loads site_down url1 stored_only =
    (None, logged (Get url1) stored_only).
Proof.
  destruct (refetch_comes_first sample_loads site_down url1 stored_only
              (article_record 1 url1 "Test Title" "1 Jan 2025" test_body)
              stored_only_idle (or_introl eq_refl) eq_refl) as [Hfirst Hfail].
  split; [exact Hfirst|].
  apply Hfail. left. reflexivity.
Defined.

(** Two more calls after the article of [url1] was stored, the first on
    its edited page. *)
Lemma stored_articles_are_kept_on_edited_page :
  exists extra,
    stored_articles
      (snd (main sample_loads
              [(serving edited_page acme_json, url1);
               (serving test_page "no json here", url2)]
              stored_only)) =
    stored_articles stored_only ++ extra.
Proof.
  apply (stored_articles_are_kept sample_loads
           [(serving edited_page acme_json, url1);
            (serving test_page "no json here", url2)]
           stored_only).
  reflexivity.
Defined.

(** The mapping [acme] omits [ceo_name] and [summary]. *)
Lemma omitted_keys_are_stored_empty_for_acme :
  let out := fetch_and_store_article sample_loads
               (serving edited_page acme_json) url1 stored_only in
  let r := analysis_record 1 1 [("company_name", PyStr "Acme")] in
  stored_analyses stored_only = [] /\
  stored_analyses (snd out) = [r] /\
  AnalysisResult.ceo_name r = PyStr "" /\
  AnalysisResult.summary r = PyStr "".
Proof.
  cbv zeta.
  split; [reflexivity|]. split; [reflexivity|].
  destruct (omitted_keys_are_stored_empty sample_loads
              (serving edited_page acme_json) url1 stored_only
              "Test Title" "1 Jan 2025" edited_body
              [("company_name", PyStr "Acme")]
              (analysis_record 1 1 [("company_name", PyStr "Acme")])
              stored_only_idle
              (serving_extracts edited_page acme_json url1 _ _ _
                 eq_refl eq_refl eq_refl)
              eq_refl (or_introl eq_refl) (fun H : False => H))
    as (_ & Hceo & Hsummary).
  split; [apply Hceo | apply Hsummary]; reflexivity.
Defined.

(* ================================================================= *)
(** ** More on the brace search *)

Lemma lacks_inv x y s : lacks x (String y s) -> y <> x /\ lacks x s.
Proof.
  intros H. split.
  - intros ->. now apply (H "" s).
  - intros a b ->. now apply (H (String y a) b).
Qed.

Lemma from_first_open_found a rest :
  lacks "{" a ->
  from_first_open (a ++ String "{" rest)%string = Some (String "{" rest).
Proof.
  induction a as [|x a IH]; simpl; intros H; [reflexivity|].
  apply lacks_inv in H as [Hne H].
  destruct (Ascii.eqb_spec x "{"); [contradiction | now apply IH].
Qed.

Lemma upto_last_close_lacks c : lacks "}" c -> upto_last_close c = None.
Proof.
  induction c as [|x c IH]; simpl; intros H; [reflexivity|].
  apply lacks_inv in H as [Hne H]. rewrite (IH H).
  destruct (Ascii.eqb_spec x "}"); [contradiction | reflexivity].
Qed.

Lemma upto_last_close_found b c :
  lacks "}" c ->
  upto_last_close (b ++ String "}" c)%string = Some (b ++ "}")%string.
Proof.
  intros H. induction b as [|x b IH]; simpl.
  - now rewrite (upto_last_close_lacks c H).
  - now rewrite IH.
Qed.

(** Text in front of the first opening brace and behind the last
    closing brace is dropped, whatever lies between the two: the span
    is everything from the one to the other, inner braces included. *)
Theorem re_search_braces_found a b c :
  lacks "{" a ->
  lacks "}" c ->
  re_search_braces (a ++ "{" ++ b ++ "}" ++ c)%string =
  Some ("{" ++ b ++ "}")%string.
Proof.
  intros Ha Hc. unfold re_search_braces.
  change (a ++ "{" ++ b ++ "}" ++ c)%string
    with (a ++ String "{" (b ++ String "}" c))%string.
  rewrite (from_first_open_found a _ Ha).
  now rewrite (upto_last_close_found b c Hc).
Qed.

Lemma lacks_decide x s :
  (forallb (fun y => negb (Ascii.eqb y x)) (list_ascii_of_string s)) = true ->
  lacks x s.
Proof.
  induction s as [|y s IH]; simpl; intros H; [apply lacks_empty|].
  apply andb_true_iff in H as [Hy Hs].
  apply lacks_cons; [|now apply IH].
  intros ->. now rewrite Ascii.eqb_refl in Hy.
Qed.

(** Two objects in one reply: the span runs from the first [{] to the
    last [}]. *)
Lemma re_search_braces_found_two_objects :
  re_search_braces "Here: {a} and {b}, done" = Some "{a} and {b}".
Proof.
  apply (re_search_braces_found "Here: " "a} and {b" ", done");
    apply lacks_decide; reflexivity.
Defined.

(* ================================================================= *)
(** ** Inserts and lookups *)

Lemma find_app {A} (f : A -> bool) l l' :
  List.find f (l ++ l') =
  match List.find f l with
  | Some x => Some x
  | None => List.find f l'
  end.
Proof.
  induction l as [|x l IH]; simpl; [reflexivity|].
  now destruct (f x).
Qed.

Lemma existsb_false_find {A} (f : A -> bool) l :
  existsb f l = false -> List.find f l = None.
Proof.
  induction l as [|x l IH]; simpl; [reflexivity|].
  destruct (f x); simpl; [discriminate | assumption].
Qed.

(** The new rowid lies above every rowid in use. *)
Lemma next_rowid_fresh ids x : In x ids -> x < next_rowid ids.
Proof.
  unfold next_rowid. induction ids as [|y ids IH]; cbn [fold_right In];
    [contradiction|].
  intros [-> | H]; [lia|]. specialize (IH H). lia.
Qed.

Lemma article_of_same_articles u d d' :
  articles d' = articles d -> article_of u d' = article_of u d.
Proof. unfold article_of. now intros ->. Qed.

Lemma analysis_of_same_analyses i d d' :
  analysis_results d' = analysis_results d ->
  analysis_of i d' = analysis_of i d.
Proof. unfold analysis_of. now intros ->. Qed.

Lemma insert_article_facts u t pd b d i d1 :
  insert (NewArticle u t pd b) d = inl (i, d1) ->
  article_of u d = None /\
  article_of u d1 = Some (article_record i u t pd b) /\
  (forall a, In a (articles d) -> Article.id a < i) /\
  (forall u', u' <> u -> article_of u' d1 = article_of u' d) /\
  (forall k, analysis_of k d1 = analysis_of k d).
Proof.
  intros H.
  assert (article_of u d = None) as Hnone.
  { unfold insert in H. unfold article_of.
    destruct (existsb _ (articles d)) eqn:He; [discriminate|].
    now apply existsb_false_find. }
  apply insert_article_inl in H as (-> & Harts & Hres).
  split; [assumption|]. split; [|split; [|split]].
  - unfold article_of in *. rewrite Harts, find_app, Hnone. simpl.
    now rewrite String.eqb_refl.
  - intros a Ha. apply next_rowid_fresh. now apply in_map.
  - intros u' Hne. unfold article_of. rewrite Harts, find_app.
    destruct (List.find (fun a => String.eqb (Article.url a) u') (articles d));
      [reflexivity|]. simpl.
    destruct (String.eqb_spec u u'); [congruence | reflexivity].
  - intros k. now apply analysis_of_same_analyses.
Qed.

(** An accepted article insert is found again under its URL, with the
    fields given and a primary key no stored article had; its URL was
    not stored before, and the lookup of every other URL and of every
    analysis is as before. *)
Theorem inserted_article_is_found u t pd b d i d1 :
  insert (NewArticle u t pd b) d = inl (i, d1) ->
  article_of u d = None /\
  article_of u d1 = Some (article_record i u t pd b) /\
  (forall a, In a (articles d) -> Article.id a < i) /\
  (forall u', u' <> u -> article_of u' d1 = article_of u' d) /\
  (forall k, analysis_of k d1 = analysis_of k d).
Proof.
  intros H.
  destruct (insert_article_facts u t pd b d i d1 H)
    as (Habsent & Hfound & Habove & Hothers & Hanalyses).
  repeat split; assumption.
Qed.

(** The same on a fresh database. *)
Lemma inserted_article_is_found_on_empty_database :
  article_of url1 empty_database = None /\
  article_of url1
    {| articles := [article_record 1 url1 "T" "D" "B"];
       analysis_results := [] |} =
    Some (article_record 1 url1 "T" "D" "B") /\
  (forall a, In a (articles empty_database) -> Article.id a < 1) /\
  (forall u', u' <> url1 ->
     article_of u'
       {| articles := [article_record 1 url1 "T" "D" "B"];
          analysis_results := [] |} = article_of u' empty_database) /\
  (forall k,
     analysis_of k
       {| articles := [article_record 1 url1 "T" "D" "B"];
          analysis_results := [] |} = analysis_of k empty_database).
Proof.
  apply (inserted_article_is_found url1 "T" "D" "B" empty_database 1).
  reflexivity.
Defined.

Lemma insert_analysis_facts aid m d i d1 :
  insert (analysis_row aid m) d = inl (i, d1) ->
  analysis_of aid d = None /\
  analysis_of aid d1 = Some (analysis_record i aid m) /\
  (forall k, k <> aid -> analysis_of k d1 = analysis_of k d) /\
  (forall u, article_of u d1 = article_of u d).
Proof.
  intros H.
  assert (analysis_of aid d = None) as Hnone.
  { unfold analysis_row, insert in H. unfold analysis_of.
    destruct (negb _); [discriminate|].
    destruct (existsb _ (analysis_results d)) eqn:He; [discriminate|].
    now apply existsb_false_find. }
  apply insert_analysis_row in H as (Harts & Hres).
  split; [assumption|].
  split; [|split].
  - unfold analysis_of in *. rewrite Hres, find_app, Hnone. simpl.
    now rewrite Z.eqb_refl.
  - intros k Hne. unfold analysis_of. rewrite Hres, find_app.
    destruct (List.find (fun r => AnalysisResult.article_id r =? k)
                        (analysis_results d)); [reflexivity|]. simpl.
    destruct (Z.eqb_spec aid k); [congruence | reflexivity].
  - intros u. now apply article_of_same_articles.
Qed.

(** An accepted analysis insert is found again under its [article_id];
    no analysis was stored for that article before, and every other
    lookup is as before. *)
Theorem inserted_analysis_is_found aid m d i d1 :
  insert (analysis_row aid m) d = inl (i, d1) ->
  analysis_of aid d = None /\
  analysis_of aid d1 = Some (analysis_record i aid m) /\
  (forall k, k <> aid -> analysis_of k d1 = analysis_of k d) /\
  (forall u, article_of u d1 = article_of u d).
Proof.
  intros H.
  destruct (insert_analysis_facts aid m d i d1 H)
    as (Habsent & Hfound & Hothers & Harticles).
  repeat split; assumption.
Qed.

Lemma inserted_analysis_is_found_for_stored_only :
  let d := committed (session stored_only) in
  let d1 := committed (session processed) in
  let m := [("company_name", PyStr "Acme")] in
  analysis_of 1 d = None /\
  analysis_of 1 d1 = Some (analysis_record 1 1 m) /\
  (forall k, k <> 1 -> analysis_of k d1 = analysis_of k d) /\
  (forall u, article_of u d1 = article_of u d).
Proof.
  cbv zeta.
  apply (inserted_analysis_is_found 1 [("company_name", PyStr "Acme")]
           (committed (session stored_only)) 1
           (committed (session processed))).
  reflexivity.
Defined.

(* ================================================================= *)
(** ** More on the analyzer and the pipeline *)

Section Further.

Variable json_loads : string -> option pyval.

(** [analyze_article] never raises, sends exactly one request, the
    prompt built from its argument, and does not touch the session;
    what it returns is [None] or a value [json.loads] decoded. *)
Theorem analyze_article_never_raises w body_text p :
  exists v,
    analyze_article json_loads w body_text p =
      (Ret v, logged (Post (prompt body_text)) p) /\
    (v = PyNone \/ exists json_str, json_loads json_str = Some v).
Proof.
  exists (analysis_value json_loads w body_text).
  split; [apply analyze_article_run|].
  rewrite analysis_value_eq.
  destruct (http_post w (prompt body_text)) as [|st js]; [now left|].
  destruct (raises_for_status st); [now left|].
  destruct (reply_of js) as [reply|e]; [|now left].
  destruct (re_search_braces reply) as [json_str|]; [|now left].
  destruct (json_loads json_str) as [v|] eqn:Hv; [|now left].
  right. now exists json_str.
Qed.

(** Each failure of the analysis call makes [analyze_article] return
    [None]: the request raises, the status is 4xx or 5xx, the envelope
    is not the expected one, the reply holds no [{...}] span, or
    [json.loads] rejects the span. *)
Theorem analyze_article_failures w body_text p :
  http_post w (prompt body_text) = PostRaises \/
  (exists status_code json,
     http_post w (prompt body_text) = PostResponse status_code json /\
     (raises_for_status status_code = true \/
      (exists e, reply_of json = inr e) \/
      (exists reply,
         reply_of json = inl reply /\
         (re_search_braces reply = None \/
          exists json_str,
            re_search_braces reply = Some json_str /\
            json_loads json_str = None)))) ->
  analyze_article json_loads w body_text p =
    (Ret PyNone, logged (Post (prompt body_text)) p).
Proof.
  intros H. rewrite analyze_article_run. f_equal. f_equal.
  rewrite analysis_value_eq.
  destruct H as [-> | (st & js & -> & H)]; [reflexivity|].
  destruct (raises_for_status st); [reflexivity|].
  destruct H as [H | [(e & ->) | (reply & -> & H)]];
    [discriminate | reflexivity |].
  destruct H as [-> | (json_str & -> & ->)]; reflexivity.
Qed.

(** When the message of the completion holds a JSON object, with text
    in front that has no [{] and text behind that has no [}],
    [analyze_article] returns what [json.loads] decodes from the object
    alone. *)
Theorem analyze_article_decodes_the_object
    w body_text p status_code json a b c v :
  http_post w (prompt body_text) = PostResponse status_code json ->
  raises_for_status status_code = false ->
  reply_of json = inl (a ++ "{" ++ b ++ "}" ++ c)%string ->
  lacks "{" a ->
  lacks "}" c ->
  json_loads ("{" ++ b ++ "}")%string = Some v ->
  analyze_article json_loads w body_text p =
    (Ret v, logged (Post (prompt body_text)) p).
Proof.
  intros Hpost Hst Hreply Ha Hc Hv.
  rewrite analyze_article_run. f_equal. f_equal.
  rewrite analysis_value_eq, Hpost, Hst, Hreply.
  unfold re_search_braces.
  change (a ++ "{" ++ b ++ "}" ++ c)%string
    with (a ++ String "{" (b ++ String "}" c))%string.
  rewrite (from_first_open_found a _ Ha), (upto_last_close_found b c Hc).
  change (String "{" (b ++ "}"))%string with ("{" ++ b ++ "}")%string.
  now rewrite Hv.
Qed.


(* --------------------------------------------------------------- *)
(** *** One call, case by case *)

Ltac at_rest_form p Hidle d act c :=
  let Hp := fresh "Hp" in
  pose proof (idle_at_rest p Hidle) as Hp;
  set (d := committed (session p)) in *;
  set (act := active (session p)) in *;
  set (c := calls p) in *;
  clearbody d act c; subst p; clear Hidle.

Ltac split_fetch w url d act :=
  let t := fresh "t" in
  let pd := fresh "pd" in
  let b := fresh "b" in
  let Hpage := fresh "Hpage" in
  let a := fresh "a" in
  let r := fresh "r" in
  let Ha := fresh "Ha" in
  let Hr := fresh "Hr" in
  destruct (page_extracts_or_fails w url) as [(t & pd & b & Hpage) | Hpage];
  [ rewrite (fetch_when_page_extracts json_loads _ _ _ _ _ _ Hpage),
      logged_at_rest;
    destruct act;
    [ destruct (article_of url d) as [a|] eqn:Ha;
      [ destruct (analysis_of (Article.id a) d) as [r|] eqn:Hr;
        [ rewrite (store_article_analysed json_loads _ _ _ _ _ _ _ _ _ Ha Hr)
        | rewrite (store_article_pending json_loads _ _ _ _ _ _ _ _ Ha Hr);
          cbv zeta ]
      | rewrite (store_article_new json_loads _ _ _ _ _ _ _ Ha) ]
    | rewrite store_article_inactive ]
  | rewrite (fetch_when_page_fails json_loads _ _ _ Hpage), logged_at_rest ].

Ltac split_outcome :=
  repeat match goal with
  | |- context [db_write ?w InsertArticle ?o ?d] =>
      destruct (db_write w InsertArticle o d) as [[? ?]|?] eqn:?; cbv zeta
  | |- context [if truthy ?v then _ else _] =>
      destruct (truthy v) eqn:?
  | |- context [match analysis_value ?j ?w ?b with PyNone => _ | _ => _ end] =>
      destruct (analysis_value j w b) eqn:?
  | |- context [db_write ?w InsertAnalysis ?o ?d] =>
      destruct (db_write w InsertAnalysis o d) as [[? ?]|?] eqn:?
  end.

(** A call sends one GET, and after it at most one request to the
    analysis service, whose prompt is built from the body text the page
    yielded. *)
Theorem one_get_and_at_most_one_post w url p :
  idle (session p) ->
  calls (snd (fetch_and_store_article json_loads w url p)) =
    calls p ++ [Get url] \/
  exists t pd b,
    page_extracts w url t pd b /\
    calls (snd (fetch_and_store_article json_loads w url p)) =
      calls p ++ [Get url; Post (prompt b)].
Proof.
  intros Hidle. at_rest_form p Hidle d act c.
  split_fetch w url d act; split_outcome;
    solve [ left; reflexivity
          | right; eexists _, _, _; split; [eassumption|];
            simpl; now rewrite <- app_assoc ].
Qed.


Ltac use_writes :=
  repeat match goal with
  | H : db_write _ InsertArticle (NewArticle _ _ _ _) _ = inl _ |- _ =>
      apply db_write_inl in H;
      let F := fresh "Hart" in
      pose proof (insert_article_facts _ _ _ _ _ _ _ H)
        as (_ & F & _ & _ & ?);
      let G := fresh "Hrows" in
      pose proof (insert_article_inl _ _ _ _ _ _ _ H) as (_ & G & ?);
      clear H
  | H : db_write _ InsertAnalysis (analysis_row _ _) _ = inl _ |- _ =>
      apply db_write_inl in H;
      let F := fresh "Hana" in
      pose proof (insert_analysis_facts _ _ _ _ _ H) as (? & F & _ & ?);
      let G := fresh "Hrows" in
      pose proof (insert_analysis_row _ _ _ _ _ H) as (? & G);
      clear H
  end.

(** The identity a call returns is the primary key of the Article row
    that is stored under the URL when the call ends. *)
Theorem returned_identity_is_stored w url p i :
  idle (session p) ->
  fst (fetch_and_store_article json_loads w url p) = Some i ->
  exists a,
    article_of url
      (committed (session (snd (fetch_and_store_article json_loads w url p))))
      = Some a /\
    Article.id a = i /\
    Article.url a = url.
Proof.
  intros Hidle. at_rest_form p Hidle d act c.
  split_fetch w url d act; split_outcome; simpl;
    try discriminate; intros Hi; injection Hi as <-; use_writes;
    repeat match goal with
    | H : forall u, article_of u ?d' = article_of u _ |- context [article_of _ ?d'] =>
        rewrite H
    end;
    solve [ exists a; repeat split;
            [assumption | now apply article_of_In in Ha]
          | eexists; repeat split; [eassumption | reflexivity | reflexivity] ].
Qed.


(** A call stores at most one Article row, and only for a URL that had
    none: the row carries the URL of the call and the three fields the
    page yielded. *)
Theorem at_most_one_article_per_call w url p :
  idle (session p) ->
  stored_articles (snd (fetch_and_store_article json_loads w url p)) =
    stored_articles p \/
  exists i t pd b,
    page_extracts w url t pd b /\
    article_of url (committed (session p)) = None /\
    stored_articles (snd (fetch_and_store_article json_loads w url p)) =
      stored_articles p ++ [article_record i url t pd b].
Proof.
  intros Hidle. unfold stored_articles. at_rest_form p Hidle d act c.
  split_fetch w url d act; split_outcome; simpl; use_writes;
    solve [ left; congruence
          | right; eexists _, _, _, _; split; [eassumption|];
            split; [reflexivity|];
            repeat match goal with
            | H : articles ?x = articles ?y |- articles ?x = _ => rewrite H
            end;
            match goal with
            | H : articles ?x = articles _ ++ _ |- articles ?x = _ => exact H
            end ].
Qed.

(** A call stores at most one AnalysisResult row.  The row belongs to
    the Article stored under the URL of the call, which had no analysis
    before; it is built from the mapping the analyzer returned for the
    body text the page yielded; and the call then returns the identity
    of that Article. *)
Theorem analysis_goes_to_the_article_of_the_url w url p :
  idle (session p) ->
  stored_analyses (snd (fetch_and_store_article json_loads w url p)) =
    stored_analyses p \/
  exists j a m t pd b,
    page_extracts w url t pd b /\
    analysis_value json_loads w b = PyDict m /\
    article_of url
      (committed (session (snd (fetch_and_store_article json_loads w url p))))
      = Some a /\
    analysis_of (Article.id a) (committed (session p)) = None /\
    stored_analyses (snd (fetch_and_store_article json_loads w url p)) =
      stored_analyses p ++ [analysis_record j (Article.id a) m] /\
    fst (fetch_and_store_article json_loads w url p) = Some (Article.id a).
Proof.
  intros Hidle. unfold stored_analyses. at_rest_form p Hidle d act c.
  split_fetch w url d act; split_outcome; simpl; use_writes;
    try solve [ left; congruence ].
  - right. exists z, a, items, t, pd, b.
    rewrite H0. repeat split; assumption.
  - right. exists z0, (article_record z url t pd b), items, t, pd, b.
    rewrite H2, Hart, Hrows0, H0. simpl Article.id. rewrite <- H.
    repeat split; assumption.
Qed.


(* --------------------------------------------------------------- *)
(** *** A new URL *)

(** Where every analysis row has its article, none refers to the rowid
    the next article will get. *)
Lemma no_analysis_for_next_rowid d :
  analyses_have_articles d ->
  analysis_of (next_rowid (map Article.id (articles d))) d = None.
Proof.
  intros Href. unfold analysis_of.
  destruct (List.find _ (analysis_results d)) as [r|] eqn:Hf; [|reflexivity].
  apply find_some in Hf as [Hin Hid]. apply Z.eqb_eq in Hid.
  destruct (Href r Hin) as (a & Ha & Haid).
  pose proof (next_rowid_fresh (map Article.id (articles d)) (Article.id a)
                (in_map _ _ _ Ha)).
  lia.
Qed.

Lemma truthy_dict m : m <> [] -> truthy (PyDict m) = true.
Proof. destruct m; [contradiction | reflexivity]. Qed.

(** The run of a call on a new URL when nothing fails. *)
Lemma new_url_run w url t pd b m d c :
  analyses_have_articles d ->
  article_of url d = None ->
  page_extracts w url t pd b ->
  db_fault w InsertArticle = false ->
  db_fault w InsertAnalysis = false ->
  analysis_value json_loads w b = PyDict m ->
  m <> [] ->
  bindable_mapping m = true ->
  exists i j d1 d2,
    insert (NewArticle url t pd b) d = inl (i, d1) /\
    insert (analysis_row i m) d1 = inl (j, d2) /\
    fetch_and_store_article json_loads w url (at_rest d true c) =
      (Some i, at_rest d2 true (c ++ [Get url; Post (prompt b)])).
Proof.
  intros Href Ha Hpage Hf1 Hf2 Hv Hne Hb.
  destruct (insert_new_url url t pd b d Ha) as (d1 & Hi).
  pose proof (insert_article_facts _ _ _ _ _ _ _ Hi)
    as (_ & _ & _ & _ & Hsame).
  assert (analysis_of (next_rowid (map Article.id (articles d))) d1 = None)
    as Hnone by (rewrite Hsame; now apply no_analysis_for_next_rowid).
  destruct (insert_first_analysis _ m _ Hnone Hb) as (j & d2 & Hj).
  exists (next_rowid (map Article.id (articles d))), j, d1, d2.
  split; [assumption|]. split; [assumption|].
  rewrite (fetch_when_page_extracts json_loads _ _ _ _ _ _ Hpage),
    logged_at_rest.
  rewrite (store_article_new json_loads _ _ _ _ _ _ _ Ha).
  unfold db_write. rewrite Hf1, Hi. cbv zeta.
  rewrite Hv, (truthy_dict m Hne), Hf2, Hj, <- app_assoc. reflexivity.
Qed.

(** For a URL with no stored Article, on a usable session over a store
    in which every analysis has its article: when the page yields the
    three fields, the analyzer returns a non-empty mapping whose values
    can be bound and the database takes both writes, the call returns
    the identity of the new Article row, appends that row and the
    AnalysisResult row that refers to it, and has sent one GET and one
    analysis request. *)
Theorem new_url_is_stored_and_analysed w url p t pd b m :
  idle (session p) ->
  active (session p) = true ->
  analyses_have_articles (committed (session p)) ->
  article_of url (committed (session p)) = None ->
  page_extracts w url t pd b ->
  db_fault w InsertArticle = false ->
  db_fault w InsertAnalysis = false ->
  analysis_value json_loads w b = PyDict m ->
  m <> [] ->
  bindable_mapping m = true ->
  let out := fetch_and_store_article json_loads w url p in
  exists i j,
    fst out = Some i /\
    stored_articles (snd out) =
      stored_articles p ++ [article_record i url t pd b] /\
    stored_analyses (snd out) =
      stored_analyses p ++ [analysis_record j i m] /\
    calls (snd out) = calls p ++ [Get url; Post (prompt b)] /\
    idle (session (snd out)) /\
    active (session (snd out)) = true.
Proof.
  intros Hidle Hact Href Ha Hpage Hf1 Hf2 Hv Hne Hb. cbv zeta.
  unfold stored_articles, stored_analyses.
  at_rest_form p Hidle d act c. subst act.
  destruct (new_url_run w url t pd b m d c Href Ha Hpage Hf1 Hf2 Hv Hne Hb)
    as (i & j & d1 & d2 & Hi & Hj & ->).
  exists i, j. simpl.
  apply insert_article_inl in Hi as (_ & Harts & Hres).
  apply insert_analysis_row in Hj as (Harts2 & Hres2).
  rewrite Harts2, Hres2, Harts, Hres. repeat split.
Qed.

(** After such a call, a second call on the same URL, in whatever world
    serves a page that yields the three fields, returns the same
    identity, stores nothing and sends nothing to the analysis
    service. *)
Theorem second_call_changes_nothing w w2 url p t pd b m t2 pd2 b2 :
  idle (session p) ->
  active (session p) = true ->
  analyses_have_articles (committed (session p)) ->
  article_of url (committed (session p)) = None ->
  page_extracts w url t pd b ->
  db_fault w InsertArticle = false ->
  db_fault w InsertAnalysis = false ->
  analysis_value json_loads w b = PyDict m ->
  m <> [] ->
  bindable_mapping m = true ->
  page_extracts w2 url t2 pd2 b2 ->
  let first := fetch_and_store_article json_loads w url p in
  let second := fetch_and_store_article json_loads w2 url (snd first) in
  fst second = fst first /\
  snd second = logged (Get url) (snd first).
Proof.
  intros Hidle Hact Href Ha Hpage Hf1 Hf2 Hv Hne Hb Hpage2. cbv zeta.
  at_rest_form p Hidle d act c. subst act.
  destruct (new_url_run w url t pd b m d c Href Ha Hpage Hf1 Hf2 Hv Hne Hb)
    as (i & j & d1 & d2 & Hi & Hj & ->).
  simpl fst. simpl snd.
  pose proof (insert_article_facts _ _ _ _ _ _ _ Hi)
    as (_ & Hart & _ & _ & _).
  pose proof (insert_analysis_facts _ _ _ _ _ Hj)
    as (_ & Hana & _ & Hsame).
  rewrite (fetch_when_page_extracts json_loads _ _ _ _ _ _ Hpage2),
    logged_at_rest.
  rewrite <- Hsame in Hart.
  rewrite (store_article_analysed json_loads _ _ _ _ _ _ _ _ _ Hart Hana).
  split; reflexivity.
Qed.


(* --------------------------------------------------------------- *)
(** *** Refused writes *)

(** For an article without analysis, the analysis write fails exactly
    when it is refused. *)
Lemma analysis_write_fails_iff w aid m d :
  analysis_of aid d = None ->
  (exists e, db_write w InsertAnalysis (analysis_row aid m) d = inr e) <->
  analysis_write_refused w m.
Proof.
  intros Hnone. unfold analysis_write_refused, db_write. split.
  - intros (e & H).
    destruct (db_fault w InsertAnalysis); [now left|]. right.
    destruct (bindable_mapping m) eqn:Hb; [|reflexivity].
    destruct (insert_first_analysis aid m d Hnone Hb) as (i & d' & Hi).
    congruence.
  - intros [-> | Hb]; [eauto|].
    destruct (db_fault w InsertAnalysis); [eauto|].
    unfold analysis_row, insert. fold (bindable_mapping m). rewrite Hb.
    simpl. eauto.
Qed.

(** On the new-article path a refused analysis write is rolled back:
    the Article row just committed stays, no AnalysisResult row is
    added and the session stays usable, but the call returns [None], so
    the driver reports the URL as failed although its article is
    stored. *)
Theorem refused_analysis_of_new_article w url p t pd b m :
  idle (session p) ->
  active (session p) = true ->
  article_of url (committed (session p)) = None ->
  page_extracts w url t pd b ->
  db_fault w InsertArticle = false ->
  analysis_value json_loads w b = PyDict m ->
  m <> [] ->
  analysis_write_refused w m ->
  let out := fetch_and_store_article json_loads w url p in
  fst out = None /\
  reports_success (fst out) = false /\
  (exists i,
     stored_articles (snd out) =
     stored_articles p ++ [article_record i url t pd b]) /\
  stored_analyses (snd out) = stored_analyses p /\
  idle (session (snd out)) /\
  active (session (snd out)) = true.
Proof.
  intros Hidle Hact Ha Hpage Hf1 Hv Hne Href. cbv zeta.
  unfold stored_articles, stored_analyses.
  at_rest_form p Hidle d act c. subst act.
  rewrite (fetch_when_page_extracts json_loads _ _ _ _ _ _ Hpage),
    logged_at_rest.
  rewrite (store_article_new json_loads _ _ _ _ _ _ _ Ha).
  destruct (insert_new_url url t pd b d Ha) as (d1 & Hi).
  assert (db_write w InsertArticle (NewArticle url t pd b) d =
          inl (next_rowid (map Article.id (articles d)), d1)) as Hw1
    by (unfold db_write; now rewrite Hf1).
  rewrite Hw1. cbv zeta.
  rewrite Hv, (truthy_dict m Hne).
  pose proof (insert_article_facts _ _ _ _ _ _ _ Hi)
    as (_ & _ & _ & _ & Hsame).
  apply insert_article_inl in Hi as (_ & Harts & Hres).
  destruct (db_write w InsertAnalysis
              (analysis_row (next_rowid (map Article.id (articles d))) m) d1)
    as [[j d2]|e] eqn:Hw.
  - exfalso.
    pose proof (insert_analysis_facts _ _ _ _ _ (db_write_inl _ _ _ _ _ Hw))
      as (Hnone & _).
    destruct (proj2 (analysis_write_fails_iff w _ m d1 Hnone) Href)
      as (e & He).
    congruence.
  - simpl. rewrite Harts, Hres. repeat split. eauto.
Qed.

Lemma page_extracts_unique w url t pd b t' pd' b' :
  page_extracts w url t pd b ->
  page_extracts w url t' pd' b' ->
  t' = t /\ pd' = pd /\ b' = b.
Proof.
  intros (st & soup & Hg & _ & Ht & Hpd & Hb)
         (st' & soup' & Hg' & _ & Ht' & Hpd' & Hb').
  rewrite Hg in Hg'. injection Hg' as <- <-.
  repeat split; congruence.
Qed.

Lemma page_fails_not_extracts w url t pd b :
  page_fails w url -> page_extracts w url t pd b -> False.
Proof.
  intros [Hg | (st & soup & Hg & H)] (st' & soup' & Hg' & Hst & Ht & Hpd & Hb);
    rewrite Hg in Hg'; [discriminate|].
  injection Hg' as <- <-.
  destruct H as [H | [H | [H | H]]]; congruence.
Qed.

(** A usable session becomes unusable in one way only: the Article of
    the URL is stored without analysis, the page yields the three
    fields, the analyzer returns a non-empty mapping, and the write of
    its AnalysisResult is refused.  Then the call returns [None] and
    the committed rows are as before. *)
Theorem session_lost_iff_completion_refused w url p :
  idle (session p) ->
  active (session p) = true ->
  let out := fetch_and_store_article json_loads w url p in
  (active (session (snd out)) = false <->
   exists a t pd b m,
     article_of url (committed (session p)) = Some a /\
     analysis_of (Article.id a) (committed (session p)) = None /\
     page_extracts w url t pd b /\
     analysis_value json_loads w b = PyDict m /\
     m <> [] /\
     analysis_write_refused w m) /\
  (active (session (snd out)) = false ->
   fst out = None /\
   committed (session (snd out)) = committed (session p)).
Proof.
  intros Hidle Hact. cbv zeta.
  at_rest_form p Hidle d act c. subst act.
  destruct (page_extracts_or_fails w url) as [(t & pd & b & Hpage) | Hpage].
  2:{ rewrite (fetch_when_page_fails json_loads _ _ _ Hpage). simpl.
      split; [split|]; try discriminate.
      intros (a & t & pd & b & m & _ & _ & Hp & _).
      destruct (page_fails_not_extracts _ _ _ _ _ Hpage Hp). }
  rewrite (fetch_when_page_extracts json_loads _ _ _ _ _ _ Hpage),
    logged_at_rest.
  assert (forall (a' : Article.t) t' pd' b' m',
            page_extracts w url t' pd' b' ->
            analysis_value json_loads w b' = PyDict m' ->
            analysis_value json_loads w b = PyDict m') as Hsame.
  { intros a' t' pd' b' m' Hp Hv.
    destruct (page_extracts_unique _ _ _ _ _ _ _ _ Hpage Hp) as (_ & _ & ->).
    exact Hv. }
  destruct (article_of url d) as [a|] eqn:Ha.
  2:{ rewrite (store_article_new json_loads _ _ _ _ _ _ _ Ha).
      split_outcome; simpl; (split; [split|]); try discriminate;
        intros (a & _ & _ & _ & _ & Hx & _); discriminate. }
  destruct (analysis_of (Article.id a) d) as [r|] eqn:Hr.
  { rewrite (store_article_analysed json_loads _ _ _ _ _ _ _ _ _ Ha Hr).
    simpl. split; [split|]; try discriminate.
    intros (a' & _ & _ & _ & _ & Hx & Hy & _).
    injection Hx as <-. congruence. }
  rewrite (store_article_pending json_loads _ _ _ _ _ _ _ _ Ha Hr). cbv zeta.
  destruct (truthy (analysis_value json_loads w b)) eqn:Ht.
  2:{ simpl. split; [split|]; try discriminate.
      intros (a' & t' & pd' & b' & m' & _ & _ & Hp & Hv & Hne & _).
      rewrite (Hsame a' _ _ _ _ Hp Hv), (truthy_dict m' Hne) in Ht.
      discriminate. }
  destruct (analysis_value json_loads w b) as [| | | | |l|m] eqn:Hv;
    try (simpl; (split; [split|]); try discriminate;
         intros (a' & t' & pd' & b' & m' & _ & _ & Hp & Hv' & _);
         pose proof (Hsame a' _ _ _ _ Hp Hv'); discriminate).
  destruct (db_write w InsertAnalysis (analysis_row (Article.id a) m) d)
    as [[j d']|e] eqn:Hw; simpl.
  - split; [split|]; try discriminate.
    intros (a' & t' & pd' & b' & m' & Hx & _ & Hp & Hv' & _ & Href).
    pose proof (Hsame a' _ _ _ _ Hp Hv') as Hm. injection Hm as <-.
    destruct (proj2 (analysis_write_fails_iff w _ m d Hr) Href) as (e & He).
    congruence.
  - split; [split|]; auto.
    intros _. exists a, t, pd, b, m. repeat split; try assumption.
    + intros ->. discriminate.
    + apply (analysis_write_fails_iff w (Article.id a) m d Hr). eauto.
Qed.


(** Once the session is unusable, every call of the rest of the batch
    returns [None], whatever its world, and the session stays as it
    is: nothing is stored any more. *)
Theorem unusable_session_fails_every_url runs :
  forall p,
    idle (session p) ->
    active (session p) = false ->
    fst (main json_loads runs p) = map (fun _ => None) runs /\
    session (snd (main json_loads runs p)) = session p.
Proof.
  induction runs as [|[w url] rest IH]; intros p Hidle Hact; simpl;
    [split; reflexivity|].
  assert (fetch_and_store_article json_loads w url p =
          (None, logged (Get url) p)) as Hstep.
  { destruct (page_extracts_or_fails w url) as [(t & pd & b & H) | H].
    - rewrite (fetch_when_page_extracts json_loads _ _ _ _ _ _ H).
      rewrite (idle_at_rest p Hidle), Hact, logged_at_rest.
      apply store_article_inactive.
    - now apply fetch_when_page_fails. }
  rewrite Hstep.
  destruct (IH (logged (Get url) p) Hidle Hact) as [Hres Hsess].
  destruct (main json_loads rest (logged (Get url) p)) as [ids p2].
  simpl in *. split; [now rewrite Hres | assumption].
Qed.

(** For a URL with no stored Article, on a usable session, when the
    page yields the three fields and the database takes the article
    write: whenever the analyzer returns a falsy value ([None], or the
    empty object), the call returns the identity of the new Article
    row, appends that row and adds no AnalysisResult row. *)
Theorem falsy_analysis_keeps_article w url p t pd b :
  idle (session p) ->
  active (session p) = true ->
  article_of url (committed (session p)) = None ->
  page_extracts w url t pd b ->
  db_fault w InsertArticle = false ->
  truthy (analysis_value json_loads w b) = false ->
  let out := fetch_and_store_article json_loads w url p in
  exists i,
    fst out = Some i /\
    stored_articles (snd out) =
      stored_articles p ++ [article_record i url t pd b] /\
    stored_analyses (snd out) = stored_analyses p /\
    active (session (snd out)) = true.
Proof.
  intros Hidle Hact Ha Hpage Hf Ht. cbv zeta.
  unfold stored_articles, stored_analyses.
  at_rest_form p Hidle d act c. subst act.
  rewrite (fetch_when_page_extracts json_loads _ _ _ _ _ _ Hpage),
    logged_at_rest.
  rewrite (store_article_new json_loads _ _ _ _ _ _ _ Ha).
  destruct (insert_new_url url t pd b d Ha) as (d1 & Hi).
  assert (db_write w InsertArticle (NewArticle url t pd b) d =
          inl (next_rowid (map Article.id (articles d)), d1)) as Hw1
    by (unfold db_write; now rewrite Hf).
  rewrite Hw1. cbv zeta. rewrite Ht. simpl.
  apply insert_article_inl in Hi as (_ & Harts & Hres).
  eexists. repeat split; assumption.
Qed.

(* --------------------------------------------------------------- *)
(** *** Keys *)

Lemma existsb_false_not_In {A B} (f : A -> B) (eqb : B -> B -> bool)
    (l : list A) (k : B) :
  (forall x, eqb x x = true) ->
  existsb (fun a => eqb (f a) k) l = false ->
  ~ In k (map f l).
Proof.
  intros Hrefl He Hin. apply in_map_iff in Hin as (a & <- & Hin).
  assert (existsb (fun a0 => eqb (f a0) (f a)) l = true) as Ht
    by (apply existsb_exists; exists a; auto).
  congruence.
Qed.

Lemma NoDup_snoc {A} (l : list A) (x : A) :
  NoDup l -> ~ In x l -> NoDup (l ++ [x]).
Proof.
  intros Hnd Hx. apply NoDup_app; [assumption | repeat constructor; intros [] |].
  intros y Hy [<- | []]. contradiction.
Qed.

Lemma evolves_keys d d' :
  evolves d d' -> keys_distinct d -> keys_distinct d'.
Proof.
  unfold keys_distinct.
  induction 1 as [d | d u t pd b i d1 d2 Hi _ IH
                    | d a c n s i d1 d2 Ha Hi _ IH];
    intros (Hurl & Hid & Hrid & Hpos & Hrpos); [auto 6 | |]; apply IH.
  - assert (~ In u (map Article.url (articles d))) as Hu.
    { unfold insert in Hi.
      destruct (existsb _ (articles d)) eqn:He; [discriminate|].
      apply (existsb_false_not_In _ String.eqb _ _ String.eqb_refl He). }
    apply insert_article_inl in Hi as (-> & Harts & Hres).
    rewrite Harts, Hres, !map_app. simpl.
    repeat split; try assumption.
    + now apply NoDup_snoc.
    + apply NoDup_snoc; [assumption|]. intros Hin.
      apply next_rowid_fresh in Hin. lia.
    + intros x Hx. apply in_app_or in Hx as [Hx | [<- | []]]; [auto|].
      simpl. apply next_rowid_positive.
  - unfold insert in Hi.
    destruct (negb _); [discriminate|].
    destruct (existsb _ (analysis_results d)); [discriminate|].
    injection Hi as <- <-. simpl. rewrite map_app. simpl.
    repeat split; try assumption.
    + apply NoDup_snoc; [assumption|]. intros Hin.
      apply next_rowid_fresh in Hin. lia.
    + intros x Hx. apply in_app_or in Hx as [Hx | [<- | []]]; [auto|].
      simpl. apply next_rowid_positive.
Qed.

(** In every state reached from a fresh database, no two Article rows
    share a URL or a primary key, no two AnalysisResult rows share a
    primary key, and every primary key is positive. *)
Theorem reachable_keys_distinct (runs : list (World * string)) :
  keys_distinct (committed (session (snd (main json_loads runs start)))).
Proof.
  destruct (main_step json_loads runs start (eq_refl : idle (session start)))
    as [_ Hev].
  apply (evolves_keys _ _ Hev).
  unfold keys_distinct. simpl.
  repeat split; try constructor; intros x [].
Qed.

(** The identity a call returns is positive when the stored primary
    keys are. *)
Lemma returned_identity_positive w url p i :
  idle (session p) ->
  (forall a, In a (stored_articles p) -> 0 < Article.id a) ->
  fst (fetch_and_store_article json_loads w url p) = Some i ->
  0 < i.
Proof.
  intros Hidle. unfold stored_articles. at_rest_form p Hidle d act c.
  intros Hpos.
  split_fetch w url d act; split_outcome; simpl;
    try discriminate; intros Hi; injection Hi as <-;
    solve [ apply Hpos; now apply article_of_In in Ha
          | match goal with
            | H : db_write _ InsertArticle _ _ = inl _ |- _ =>
                apply db_write_inl, insert_article_inl in H as (-> & _ & _);
                apply next_rowid_positive
            end ].
Qed.

(** After any calls from a fresh database, the driver's test
    [if article_id:] succeeds exactly when the call returned an
    identity: no identity is 0. *)
Theorem driver_reports_every_identity (runs : list (World * string)) w url :
  let out := fetch_and_store_article json_loads w url
               (snd (main json_loads runs start)) in
  reports_success (fst out) =
  match fst out with
  | Some _ => true
  | None => false
  end.
Proof.
  cbv zeta.
  set (p := snd (main json_loads runs start)).
  destruct (main_step json_loads runs start (eq_refl : idle (session start)))
    as [Hidle Hev]. fold p in Hidle, Hev.
  assert (keys_distinct (committed (session p))) as (_ & _ & _ & Hpos & _).
  { apply (evolves_keys _ _ Hev). unfold keys_distinct. simpl.
    repeat split; try constructor; intros x []. }
  destruct (fst (fetch_and_store_article json_loads w url p)) as [i|] eqn:Hi;
    [|reflexivity].
  pose proof (returned_identity_positive w url p i Hidle Hpos Hi).
  simpl. destruct (Z.eqb_spec i 0); [lia | reflexivity].
Qed.

(* --------------------------------------------------------------- *)
(** *** The batch *)

(** What a call returns and does to the session does not depend on the
    requests sent before it. *)
Lemma fetch_independent_of_log w url d act :
  exists r d' act' more,
    forall c,
      fetch_and_store_article json_loads w url (at_rest d act c) =
      (r, at_rest d' act' (c ++ Get url :: more)).
Proof.
  destruct (page_extracts_or_fails w url) as [(t & pd & b & Hpage) | Hpage].
  2:{ exists None, d, act, []. intros c.
      now rewrite (fetch_when_page_fails json_loads _ _ _ Hpage). }
  assert (forall r d' act' more,
            (forall c,
               store_article json_loads w url t pd b (at_rest d act c) =
               (r, at_rest d' act' (c ++ more))) ->
            forall c,
              fetch_and_store_article json_loads w url (at_rest d act c) =
              (r, at_rest d' act' (c ++ Get url :: more))) as Hlift.
  { intros r d' act' more H c.
    rewrite (fetch_when_page_extracts json_loads _ _ _ _ _ _ Hpage),
      logged_at_rest, H, <- app_assoc. reflexivity. }
  destruct act.
  2:{ exists None, d, false, []. apply Hlift. intros c.
      now rewrite store_article_inactive, app_nil_r. }
  destruct (article_of url d) as [a|] eqn:Ha.
  - destruct (analysis_of (Article.id a) d) as [r|] eqn:Hr.
    { exists (Some (Article.id a)), d, true, []. apply Hlift. intros c.
      now rewrite (store_article_analysed json_loads _ _ _ _ _ _ _ _ _ Ha Hr),
        app_nil_r. }
    pose proof (fun c => store_article_pending json_loads w url t pd b d c a Ha Hr)
      as Heq. cbv zeta in Heq.
    destruct (truthy (analysis_value json_loads w b)).
    2:{ eexists _, _, _, _. apply Hlift. intros c. now rewrite Heq. }
    destruct (analysis_value json_loads w b) as [| | | | |l|m];
      try (eexists _, _, _, _; apply Hlift; intros c; now rewrite Heq).
    destruct (db_write w InsertAnalysis (analysis_row (Article.id a) m) d)
      as [[j d']|e];
      eexists _, _, _, _; apply Hlift; intros c; now rewrite Heq.
  - pose proof (fun c => store_article_new json_loads w url t pd b d c Ha)
      as Heq.
    destruct (db_write w InsertArticle (NewArticle url t pd b) d)
      as [[i d1]|e].
    2:{ exists None, d, true, []. apply Hlift. intros c.
        now rewrite Heq, app_nil_r. }
    cbv zeta in Heq.
    destruct (truthy (analysis_value json_loads w b)).
    2:{ eexists _, _, _, _. apply Hlift. intros c. now rewrite Heq. }
    destruct (analysis_value json_loads w b) as [| | | | |l|m];
      try (eexists _, _, _, _; apply Hlift; intros c; now rewrite Heq).
    destruct (db_write w InsertAnalysis (analysis_row i m) d1) as [[j d2]|e];
      eexists _, _, _, _; apply Hlift; intros c; now rewrite Heq.
Qed.

Lemma main_independent_of_log runs :
  forall d act c1 c2,
    fst (main json_loads runs (at_rest d act c1)) =
    fst (main json_loads runs (at_rest d act c2)) /\
    session (snd (main json_loads runs (at_rest d act c1))) =
    session (snd (main json_loads runs (at_rest d act c2))).
Proof.
  induction runs as [|[w url] rest IH]; intros d act c1 c2; simpl;
    [split; reflexivity|].
  destruct (fetch_independent_of_log w url d act)
    as (r & d' & act' & more & H).
  rewrite (H c1), (H c2).
  destruct (IH d' act' (c1 ++ Get url :: more) (c2 ++ Get url :: more))
    as [Hres Hsess].
  destruct (main json_loads rest (at_rest d' act' (c1 ++ Get url :: more)))
    as [ids1 p1].
  destruct (main json_loads rest (at_rest d' act' (c2 ++ Get url :: more)))
    as [ids2 p2].
  simpl in *. split; [now rewrite Hres | assumption].
Qed.

(** A URL whose fetch or extraction fails costs the batch nothing but
    its own result: the other URLs get the results, and leave the
    session, they would have had without it. *)
Theorem failed_page_does_not_disturb_the_batch w url rest p :
  idle (session p) ->
  page_fails w url ->
  fst (main json_loads ((w, url) :: rest) p) =
    None :: fst (main json_loads rest p) /\
  session (snd (main json_loads ((w, url) :: rest) p)) =
    session (snd (main json_loads rest p)).
Proof.
  intros Hidle Hfails. at_rest_form p Hidle d act c.
  simpl. rewrite (fetch_when_page_fails json_loads _ _ _ Hfails), logged_at_rest.
  destruct (main_independent_of_log rest d act (c ++ [Get url]) c)
    as [Hres Hsess].
  destruct (main json_loads rest (at_rest d act (c ++ [Get url]))) as [ids1 p1].
  destruct (main json_loads rest (at_rest d act c)) as [ids2 p2].
  simpl in *. split; [now rewrite Hres | assumption].
Qed.

End Further.

(** The site answers with an error page to the analysis request. *)
Lemma analyze_article_failures_when_service_is_down :
  analyze_article sample_loads
    (answering_only test_page edited_body acme_json) test_body start =
  (Ret PyNone, logged (Post (prompt test_body)) start).
Proof.
  apply (analyze_article_failures sample_loads).
  left. reflexivity.
Defined.

(** The reply of the specification's example: a sentence, then the
    object. *)
Lemma analyze_article_decodes_the_object_after_a_sentence :
  analyze_article sample_loads
    (serving test_page ("Here is the result: " ++ acme_json)%string)
    test_body start =
  (Ret acme, logged (Post (prompt test_body)) start).
Proof.
  apply (analyze_article_decodes_the_object sample_loads
           (serving test_page ("Here is the result: " ++ acme_json)%string)
           test_body start 200
           (Some (completion ("Here is the result: " ++ acme_json)%string))
           "Here is the result: "
           (DQ ++ "company_name" ++ DQ ++ ": " ++ DQ ++ "Acme" ++ DQ)%string
           "" acme).
  - reflexivity.
  - reflexivity.
  - reflexivity.
  - apply lacks_decide. reflexivity.
  - apply lacks_empty.
  - reflexivity.
Defined.

(** The stored article of [url1] is completed: one GET, one POST. *)
Lemma one_get_and_at_most_one_post_on_edited_page :
  let w := serving edited_page acme_json in
  calls (snd (fetch_and_store_article sample_loads w url1 stored_only)) =
    calls stored_only ++ [Get url1] \/
  exists t pd b,
    page_extracts w url1 t pd b /\
    calls (snd (fetch_and_store_article sample_loads w url1 stored_only)) =
      calls stored_only ++ [Get url1; Post (prompt b)].
Proof.
  apply (one_get_and_at_most_one_post sample_loads
           (serving edited_page acme_json) url1 stored_only).
  reflexivity.
Defined.

(** The first call on a fresh database returns 1, the key of the row
    stored under [url1]. *)
Lemma returned_identity_is_stored_on_first_call :
  let w := serving test_page acme_json in
  exists a,
    article_of url1
      (committed
         (session (snd (fetch_and_store_article sample_loads w url1 start))))
      = Some a /\
    Article.id a = 1 /\
    Article.url a = url1.
Proof.
  apply (returned_identity_is_stored sample_loads
           (serving test_page acme_json) url1 start 1);
    reflexivity.
Defined.

Lemma at_most_one_article_per_call_on_first_call :
  let w := serving test_page acme_json in
  stored_articles (snd (fetch_and_store_article sample_loads w url1 start)) =
    stored_articles start \/
  exists i t pd b,
    page_extracts w url1 t pd b /\
    article_of url1 (committed (session start)) = None /\
    stored_articles (snd (fetch_and_store_article sample_loads w url1 start)) =
      stored_articles start ++ [article_record i url1 t pd b].
Proof.
  apply (at_most_one_article_per_call sample_loads
           (serving test_page acme_json) url1 start).
  reflexivity.
Defined.

Lemma analysis_goes_to_the_article_of_the_url_on_edited_page :
  let w := serving edited_page acme_json in
  let out := fetch_and_store_article sample_loads w url1 stored_only in
  stored_analyses (snd out) = stored_analyses stored_only \/
  exists j a m t pd b,
    page_extracts w url1 t pd b /\
    analysis_value sample_loads w b = PyDict m /\
    article_of url1 (committed (session (snd out))) = Some a /\
    analysis_of (Article.id a) (committed (session stored_only)) = None /\
    stored_analyses (snd out) =
      stored_analyses stored_only ++ [analysis_record j (Article.id a) m] /\
    fst out = Some (Article.id a).
Proof.
  apply (analysis_goes_to_the_article_of_the_url sample_loads
           (serving edited_page acme_json) url1 stored_only).
  reflexivity.
Defined.

(** The first call on a fresh database, with the reply of the
    specification's example. *)
Lemma new_url_is_stored_and_analysed_on_first_call :
  let w := serving test_page ("Here is the result: " ++ acme_json)%string in
  let out := fetch_and_store_article sample_loads w url1 start in
  exists i j,
    fst out = Some i /\
    stored_articles (snd out) =
      stored_articles start ++
      [article_record i url1 "Test Title" "1 Jan 2025" test_body] /\
    stored_analyses (snd out) =
      stored_analyses start ++
      [analysis_record j i [("company_name", PyStr "Acme")]] /\
    calls (snd out) = calls start ++ [Get url1; Post (prompt test_body)] /\
    idle (session (snd out)) /\
    active (session (snd out)) = true.
Proof.
  apply (new_url_is_stored_and_analysed sample_loads
           (serving test_page ("Here is the result: " ++ acme_json)%string)
           url1 start "Test Title" "1 Jan 2025" test_body
           [("company_name", PyStr "Acme")]).
  - reflexivity.
  - reflexivity.
  - intros r [].
  - reflexivity.
  - apply serving_extracts; reflexivity.
  - reflexivity.
  - reflexivity.
  - reflexivity.
  - discriminate.
  - reflexivity.
Defined.

(** The same call, then a call on the edited page. *)
Lemma second_call_changes_nothing_on_edited_page :
  let w := serving test_page ("Here is the result: " ++ acme_json)%string in
  let first := fetch_and_store_article sample_loads w url1 start in
  let second := fetch_and_store_article sample_loads
                  (serving edited_page acme_json) url1 (snd first) in
  fst second = fst first /\
  snd second = logged (Get url1) (snd first).
Proof.
  apply (second_call_changes_nothing sample_loads
           (serving test_page ("Here is the result: " ++ acme_json)%string)
           (serving edited_page acme_json)
           url1 start "Test Title" "1 Jan 2025" test_body
           [("company_name", PyStr "Acme")]
           "Test Title" "1 Jan 2025" edited_body).
  - reflexivity.
  - reflexivity.
  - intros r [].
  - reflexivity.
  - apply serving_extracts; reflexivity.
  - reflexivity.
  - reflexivity.
  - reflexivity.
  - discriminate.
  - reflexivity.
  - apply serving_extracts; reflexivity.
Defined.

(** A new URL whose analysis write the database refuses. *)
Lemma refused_analysis_of_new_article_on_first_call :
  let w := analysis_write_fails test_page acme_json in
  let out := fetch_and_store_article sample_loads w url1 start in
  fst out = None /\
  reports_success (fst out) = false /\
  (exists i,
     stored_articles (snd out) =
     stored_articles start ++
     [article_record i url1 "Test Title" "1 Jan 2025" test_body]) /\
  stored_analyses (snd out) = stored_analyses start /\
  idle (session (snd out)) /\
  active (session (snd out)) = true.
Proof.
  apply (refused_analysis_of_new_article sample_loads
           (analysis_write_fails test_page acme_json) url1 start
           "Test Title" "1 Jan 2025" test_body
           [("company_name", PyStr "Acme")]).
  - reflexivity.
  - reflexivity.
  - reflexivity.
  - exists 200, test_page. repeat split; reflexivity.
  - reflexivity.
  - reflexivity.
  - discriminate.
  - left. reflexivity.
Defined.

(** The stored article of [url1] and a refused analysis write. *)
Lemma session_lost_iff_completion_refused_for_stored_only :
  let w := analysis_write_fails test_page acme_json in
  let out := fetch_and_store_article sample_loads w url1 stored_only in
  active (session (snd out)) = false /\
  fst out = None /\
  committed (session (snd out)) = committed (session stored_only).
Proof.
  cbv zeta.
  destruct (session_lost_iff_completion_refused sample_loads
              (analysis_write_fails test_page acme_json) url1 stored_only
              stored_only_idle eq_refl) as [Hiff Hthen].
  assert (active
            (session
               (snd (fetch_and_store_article sample_loads
                       (analysis_write_fails test_page acme_json)
                       url1 stored_only))) = false) as Hlost.
  { apply Hiff.
    exists (article_record 1 url1 "Test Title" "1 Jan 2025" test_body),
      "Test Title", "1 Jan 2025", test_body, [("company_name", PyStr "Acme")].
    repeat split; try reflexivity.
    - exists 200, test_page. repeat split; reflexivity.
    - discriminate.
    - left. reflexivity. }
  split; [exact Hlost | exact (Hthen Hlost)].
Defined.

(** Two healthy calls after the session was lost. *)
Lemma unusable_session_fails_every_url_after_refusal :
  let runs := [(serving test_page acme_json, url2);
               (serving edited_page acme_json, url1)] in
  fst (main sample_loads runs poisoned) = [None; None] /\
  session (snd (main sample_loads runs poisoned)) = session poisoned.
Proof.
  apply (unusable_session_fails_every_url sample_loads
           [(serving test_page acme_json, url2);
            (serving edited_page acme_json, url1)] poisoned);
    reflexivity.
Defined.

(** The service answers with the empty object. *)
Lemma falsy_analysis_keeps_article_for_empty_object :
  let w := serving test_page "{}" in
  let out := fetch_and_store_article sample_loads w url1 start in
  exists i,
    fst out = Some i /\
    stored_articles (snd out) =
      stored_articles start ++
      [article_record i url1 "Test Title" "1 Jan 2025" test_body] /\
    stored_analyses (snd out) = stored_analyses start /\
    active (session (snd out)) = true.
Proof.
  apply (falsy_analysis_keeps_article sample_loads
           (serving test_page "{}") url1 start
           "Test Title" "1 Jan 2025" test_body).
  - reflexivity.
  - reflexivity.
  - reflexivity.
  - apply serving_extracts; reflexivity.
  - reflexivity.
  - reflexivity.
Defined.

(* ================================================================= *)
(** ** The text of an element *)



(* ================================================================= *)
(** ** Extracted texts carry no white space around them *)

Lemma py_rstrip_length s :
  (String.length (py_rstrip s) <= String.length s)%nat.
Proof.
  induction s as [|c s IH]; simpl; [lia|].
  destruct (py_rstrip s) as [|c' r]; [destruct (py_isspace c)|]; simpl in *; lia.
Qed.

Lemma py_lstrip_length s :
  (String.length (py_lstrip s) <= String.length s)%nat.
Proof.
  induction s as [|c s IH]; simpl; [lia|].
  destruct (py_isspace c); simpl; lia.
Qed.

Lemma py_rstrip_idempotent s : py_rstrip (py_rstrip s) = py_rstrip s.
Proof.
  induction s as [|c s IH]; simpl; [reflexivity|].
  destruct (py_rstrip s) as [|c' r] eqn:Hr.
  - destruct (py_isspace c) eqn:Hc; simpl; [reflexivity | now rewrite Hc].
  - cbn [py_rstrip] in *. now rewrite IH.
Qed.

(** A string that [strip] leaves alone is empty or starts with a
    character that is not white space. *)
Lemma py_strip_fixed_head c s :
  py_strip (String c s) = String c s -> py_isspace c = false.
Proof.
  unfold py_strip. simpl. destruct (py_isspace c); [|reflexivity].
  intros H. exfalso.
  pose proof (py_rstrip_length (py_lstrip s)).
  pose proof (py_lstrip_length s).
  rewrite H in *. simpl in *. lia.
Qed.

Lemma py_strip_fixed_rstrip s : py_strip s = s -> py_rstrip s = s.
Proof.
  destruct s as [|c s]; [reflexivity|]. intros H.
  pose proof (py_strip_fixed_head c s H) as Hc.
  unfold py_strip in H. simpl in H. now rewrite Hc in H.
Qed.

Lemma py_rstrip_app a b :
  b <> "" -> py_rstrip b = b -> py_rstrip (a ++ b) = (a ++ b)%string.
Proof.
  intros Hne Hb. induction a as [|c a IH]; simpl; [assumption|].
  rewrite IH. destruct (a ++ b)%string eqn:E; [|reflexivity].
  destruct a; simpl in E; [contradiction | discriminate].
Qed.

Lemma py_strip_app a b :
  a <> "" -> b <> "" ->
  py_strip a = a -> py_strip b = b ->
  py_strip (a ++ b) = (a ++ b)%string.
Proof.
  intros Ha Hb Hsa Hsb.
  destruct a as [|c a]; [contradiction|].
  pose proof (py_strip_fixed_head c a Hsa) as Hc.
  unfold py_strip. simpl. rewrite Hc.
  apply (py_rstrip_app (String c a) b Hb).
  now apply py_strip_fixed_rstrip.
Qed.

Lemma py_lstrip_head s :
  match py_lstrip s with
  | String c _ => py_isspace c = false
  | EmptyString => True
  end.
Proof.
  induction s as [|c s IH]; simpl; [exact I|].
  destruct (py_isspace c) eqn:Hc; [assumption | simpl; assumption].
Qed.

Lemma py_rstrip_head s :
  match s with
  | String c _ => py_isspace c = false
  | EmptyString => True
  end ->
  match py_rstrip s with
  | String c _ => py_isspace c = false
  | EmptyString => True
  end.
Proof.
  destruct s as [|c s]; simpl; [auto|]. intros Hc.
  destruct (py_rstrip s); [rewrite Hc|]; simpl; assumption.
Qed.

Lemma py_strip_idempotent s : py_strip (py_strip s) = py_strip s.
Proof.
  unfold py_strip.
  pose proof (py_rstrip_head _ (py_lstrip_head s)) as Hhead.
  destruct (py_rstrip (py_lstrip s)) as [|c r] eqn:E; [reflexivity|].
  simpl py_lstrip. rewrite Hhead. rewrite <- E.
  apply py_rstrip_idempotent.
Qed.

Lemma concat_stripped l :
  Forall (fun x => x <> "" /\ py_strip x = x) l ->
  py_strip (String.concat "" l) = String.concat "" l /\
  (l <> [] -> String.concat "" l <> "").
Proof.
  induction 1 as [|x l [Hne Hx] Hl [IH IHne]]; [split; [reflexivity | congruence]|].
  destruct l as [|y l].
  - simpl. split; [assumption | intros _; assumption].
  - change (String.concat "" (x :: y :: l))
      with (x ++ String.concat "" (y :: l))%string.
    split.
    + apply py_strip_app; try assumption. apply IHne. discriminate.
    + intros _ E. destruct x; [contradiction | discriminate].
Qed.

Lemma get_text_stripped e : py_strip (get_text e) = get_text e.
Proof.
  unfold get_text, py_join. apply concat_stripped.
  unfold stripped_strings. apply Forall_forall. intros x Hx.
  apply in_flat_map in Hx as (d & _ & Hx).
  destruct d as [s| |]; try contradiction.
  destruct (String.eqb_spec (py_strip s) "") as [E | Hne]; [contradiction|].
  destruct Hx as [<- | []]. split; [assumption | apply py_strip_idempotent].
Qed.

(** The title and the publication date come out of extraction without
    white space around them, and the body text is a join, by blank
    lines, of at least one paragraph text without white space around
    it. *)
Theorem extracted_fields_are_stripped soup t pd b :
  extract_title soup = Some t ->
  extract_pub_date soup = Some pd ->
  extract_body soup = Some b ->
  py_strip t = t /\
  py_strip pd = pd /\
  exists texts,
    texts <> [] /\
    Forall (fun x => py_strip x = x) texts /\
    b = py_join (LF ++ LF)%string texts.
Proof.
  unfold extract_title, extract_pub_date, extract_body.
  destruct (find "h1" None soup) as [e1|]; [|discriminate].
  destruct (find "span" (Some "d-ib mr-05") soup) as [e2|]; [|discriminate].
  destruct (find "div" (Some "kInstance-Body instance-box-mb") soup)
    as [e3|]; [|discriminate].
  intros [= <-] [= <-] Hb.
  split; [apply get_text_stripped|]. split; [apply get_text_stripped|].
  destruct (find_all "p" None e3) as [|x l] eqn:Hps; [discriminate|].
  injection Hb as <-.
  exists (map get_text (x :: l)). split; [discriminate|].
  split; [|reflexivity].
  apply Forall_forall. intros y Hy.
  apply in_map_iff in Hy as (e & <- & _). apply get_text_stripped.
Qed.

(** White space and markup around the texts of the page are gone. *)
Lemma extracted_fields_are_stripped_on_spaced_page :
  py_strip "TestTitle" = "TestTitle" /\
  py_strip "1 Jan 2025" = "1 Jan 2025" /\
  exists texts,
    texts <> [] /\
    Forall (fun x => py_strip x = x) texts /\
    ("A." ++ LF ++ LF ++ "B.")%string = py_join (LF ++ LF)%string texts.
Proof.
  apply (extracted_fields_are_stripped spaced_page
           "TestTitle" "1 Jan 2025" ("A." ++ LF ++ LF ++ "B.")%string);
    reflexivity.
Defined.

(** The site is down for [url1]; [url2] is processed as if [url1] had
    not been in the batch. *)
Lemma failed_page_does_not_disturb_the_batch_when_site_is_down :
  let rest := [(serving test_page acme_json, url2)] in
  fst (main sample_loads ((site_down, url1) :: rest) start) =
    None :: fst (main sample_loads rest start) /\
  session (snd (main sample_loads ((site_down, url1) :: rest) start)) =
    session (snd (main sample_loads rest start)).
Proof.
  apply (failed_page_does_not_disturb_the_batch sample_loads
           site_down url1 [(serving test_page acme_json, url2)] start).
  - reflexivity.
  - left. reflexivity.
Defined.
